(** * Wallpaper Engine <-> Home Assistant MQTT bridge

    A shallow embedding of the three program variants of the repository
    ([src/src/main.ts], [src/unnamed/part_000], [src/unnamed/part_001])
    and the properties of their identity resolver, command dispatcher and
    refresh loop.

    Conventions of the embedding:
    - a JavaScript string is a [string] (its UTF-8 bytes); every operator
      used by the program on strings ([===], [startsWith], [split] on an
      ASCII separator, concatenation, [replace] of an ASCII character) acts
      the same on that representation;
    - [await]ed calls to the control API are answered by an oracle that sees
      the calls made so far, and either resolve or reject;
    - everything the program does to the outside (control-API calls, MQTT
      publishes and subscriptions, process exit) is appended to a trace;
      console output is not part of the trace;
    - a handler run is followed from its start to its completion on its
      own: two runs are not interleaved at an [await]. *)

From Stdlib Require Import String Ascii List Bool Arith NArith Lia PrimFloat.
Import ListNotations.
Local Open Scope string_scope.

(** ** ECMAScript string operations used by the program *)

(** The double quote character, for JSON texts. *)
Definition dquote : string := String "034"%char EmptyString.

(** [Array.prototype.join] on an array of strings. *)
Definition join (sep : string) (parts : list string) : string :=
  String.concat sep parts.

(** [String.prototype.startsWith]. *)
Definition startsWith (s p : string) : bool := String.prefix p s.

(** [String.prototype.toLowerCase] on one character of the ASCII range;
    bytes of multi-byte characters are left as they are. *)
Definition lowerChar (c : ascii) : ascii :=
  let n := nat_of_ascii c in
  if ((65 <=? n) && (n <=? 90))%nat then ascii_of_nat (n + 32) else c.

Fixpoint toLowerCase (s : string) : string :=
  match s with
  | EmptyString => EmptyString
  | String c r => String (lowerChar c) (toLowerCase r)
  end.

(** [s.replace(/c/g, d)] for a single literal character [c]. *)
Fixpoint replaceAll (c d : ascii) (s : string) : string :=
  match s with
  | EmptyString => EmptyString
  | String x r => String (if Ascii.eqb x c then d else x) (replaceAll c d r)
  end.

(** [s.split(sep)] for a one-character separator: the pieces between
    occurrences of [sep], at least one piece. *)
Fixpoint split (sep : ascii) (s : string) : list string :=
  match s with
  | EmptyString => [EmptyString]
  | String c r =>
      if Ascii.eqb c sep then EmptyString :: split sep r
      else match split sep r with
           | [] => [String c EmptyString]
           | p :: ps => String c p :: ps
           end
  end.

(** [Array.prototype.includes] on an array of strings. *)
Definition includes (l : list string) (s : string) : bool :=
  existsb (String.eqb s) l.

(** Does the character occur in the string? *)
Fixpoint occurs (c : ascii) (s : string) : bool :=
  match s with
  | EmptyString => false
  | String x r => Ascii.eqb x c || occurs c r
  end.

(** ** Identity resolver *)

(** One entry of [os.networkInterfaces()]. *)
Record NetworkInterfaceInfo := {
  family : string;
  internal : bool;
  address : string
}.

(** The object returned by [os.networkInterfaces()], as the sequence of its
    keys in [Object.keys] order, each with its value ([None] for a missing
    value, which the program reads as the empty array). *)
Definition NetworkInterfaces := list (string * option (list NetworkInterfaceInfo)).

Definition orEmpty {A} (o : option (list A)) : list A :=
  match o with Some l => l | None => [] end.

(** The inner [for (const a of addrs)] loop with its early [return]. *)
Fixpoint scanAddrs (p : NetworkInterfaceInfo -> bool)
    (addrs : list NetworkInterfaceInfo) : option string :=
  match addrs with
  | [] => None
  | a :: rest => if p a then Some (address a) else scanAddrs p rest
  end.

(** The outer [for (const name of Object.keys(ifaces))] loop. *)
Fixpoint scanIfaces (p : NetworkInterfaceInfo -> bool)
    (ifaces : NetworkInterfaces) : option string :=
  match ifaces with
  | [] => None
  | (_, addrs) :: rest =>
      match scanAddrs p (orEmpty addrs) with
      | Some a => Some a
      | None => scanIfaces p rest
      end
  end.

Definition externalIPv4 (a : NetworkInterfaceInfo) : bool :=
  (family a =? "IPv4") && negb (internal a).

Definition getLocalIPv4_prefer (preferPrefix : string)
    (ifaces : NetworkInterfaces) : string :=
  match scanIfaces (fun a => externalIPv4 a && startsWith (address a) preferPrefix) ifaces with
  | Some a => a
  | None =>
      match scanIfaces externalIPv4 ifaces with
      | Some a => a
      | None => "127.0.0.1"
      end
  end.

(** [getLocalIPv4()] with its default argument. *)
Definition getLocalIPv4 (ifaces : NetworkInterfaces) : string :=
  getLocalIPv4_prefer "192.168.178" ifaces.

(** [`wallpaper_engine_${localIp.replace(/\./g, '_')}`]. *)
Definition nodeIdOf (localIp : string) : string :=
  "wallpaper_engine_" ++ replaceAll "." "_" localIp.

(** [`Wallpaper Engine (${localIp})`]. *)
Definition deviceNameOf (localIp : string) : string :=
  "Wallpaper Engine (" ++ localIp ++ ")".

(** The node identifier a run of [main] computes from the interfaces. *)
Definition resolveNodeId (ifaces : NetworkInterfaces) : string :=
  nodeIdOf (getLocalIPv4 ifaces).

(** ** Topic naming *)

Definition makeTopic (parts : list string) : string := join "/" parts.

Definition haDiscoveryTopic (domain nodeId objectId : string) : string :=
  "homeassistant/" ++ domain ++ "/" ++ nodeId ++ "/" ++ objectId ++ "/config".

(** ** Toggle payloads *)

(** [['ON','1'].includes(msg) || msg.toLowerCase() === 'true'] (main.ts,
    part_001); part_000 writes the same test with two [===]. *)
Definition isOn (msg : string) : bool :=
  includes ["ON"; "1"] msg || (toLowerCase msg =? "true").

Definition isOn_part000 (msg : string) : bool :=
  (msg =? "ON") || (msg =? "1") || (toLowerCase msg =? "true").

Definition onOff (b : bool) : string := if b then "ON" else "OFF".

(** ** JavaScript values and builtins *)

(** Values that cross the JSON boundary or come from the control API. *)
#[local] Set Warnings "-register-all".
Inductive jsval :=
| JUndefined
| JNull
| JBool (b : bool)
| JNum (x : float)
| JStr (s : string)
| JArr (items : list jsval)
| JObj (fields : list (string * jsval)).

(** ToBoolean, as used by [||]. *)
Definition truthy (v : jsval) : bool :=
  match v with
  | JUndefined | JNull => false
  | JBool b => b
  | JNum x => negb (PrimFloat.eqb x 0%float || PrimFloat.is_nan x)
  | JStr s => negb (s =? "")
  | JArr _ | JObj _ => true
  end.

(** The builtins of the language runtime that the program calls and that
    are not part of the repository: [JSON.parse] ([None] when it throws a
    SyntaxError), [JSON.stringify], and [parseInt] applied to a string or
    to [undefined]. *)
Record ECMAScript := {
  JSON_parse : string -> option jsval;
  JSON_stringify : jsval -> string;
  parseInt : option string -> float
}.

(** ** The control API (package wallpaper-engine-api) *)

Inductive JsError := Error (message : string).

(** An element of the array [listWallpapers()] resolves to. *)
Record RawWallpaper := {
  raw_id : option string;
  raw_path : string;
  raw_title : string
}.

(** What [wallpaper().current()] resolves to. *)
Record CurrentWallpaper := {
  cw_id : string;
  cw_title : string;
  cw_description : jsval;
  cw_preview : jsval;
  cw_tags : jsval;
  cw_path : jsval;
  cw_properties : jsval
}.

Inductive ApiCall :=
| ShowIcons                                      (* desktop().showIcons() *)
| HideIcons                                      (* desktop().hideIcons() *)
| Mute                                           (* controls().mute() *)
| Unmute                                         (* controls().unmute() *)
| Pause                                          (* controls().pause() *)
| Play                                           (* controls().play() *)
| Stop                                           (* controls().stop() *)
| Load (wallpaper : string) (monitor : option float) (* wallpaper().load(..) *)
| ApplyProperties (props : jsval)                (* wallpaper().applyProperties(..) *)
| Current                                        (* wallpaper().current() *)
| ProfileLoad (name : string)                    (* profile().load(..) *)
| ListWallpapers                                 (* listWallpapers() *)
| ListProfiles.                                  (* listProfiles() *)

(** The remote application: how each awaited call settles, given the calls
    made before it. [perform] answers the calls whose result the program
    does not use ([None]: resolved, [Some e]: rejected with [e]). *)
Record WallpaperEngineApi := {
  perform : list ApiCall -> ApiCall -> option JsError;
  listWallpapers : list ApiCall -> JsError + list RawWallpaper;
  listProfiles : list ApiCall -> JsError + option (list string);
  current : list ApiCall -> JsError + CurrentWallpaper
}.

(** ** Program state and effects *)

Record WallpaperEntry := { id : string; title : string }.

Record State := { showIcons : bool; muted : bool; paused : bool }.

(** The [let] variables of [main] shared by the handlers
    ([currentWallpaper] exists in part_000 only). *)
Record Vars := {
  wallpapers : list WallpaperEntry;
  profiles : list string;
  currentWallpaper : option (string * string * jsval);
  state : State
}.

Definition initialVars : Vars :=
  {| wallpapers := []; profiles := []; currentWallpaper := None;
     state := {| showIcons := true; muted := false; paused := false |} |}.

Inductive Effect :=
| Call (c : ApiCall)
| Publish (topic payload : string) (retain : bool)
| Subscribe (topic : string)
| SetInterval (ms : N)
| ClientEnd
| ProcessExit (code : nat).

Record Env := {
  js : ECMAScript;
  we : WallpaperEngineApi;
  networkInterfaces : NetworkInterfaces
}.

Record World := { vars : Vars; trace : list Effect }.

(** The control-API calls of a trace, in order. *)
Fixpoint calls (tr : list Effect) : list ApiCall :=
  match tr with
  | [] => []
  | Call c :: r => c :: calls r
  | _ :: r => calls r
  end.

(** The publishes of a trace, in order. *)
Fixpoint publishes (tr : list Effect) : list (string * string * bool) :=
  match tr with
  | [] => []
  | Publish t p r :: rest => (t, p, r) :: publishes rest
  | _ :: rest => publishes rest
  end.

(** ** The monad of handlers: environment, state, trace and exceptions *)

Inductive Completion (A : Type) :=
| Normal (a : A)
| Throw (e : JsError).
Arguments Normal {A} a.
Arguments Throw {A} e.

Definition M (A : Type) : Type := Env -> World -> Completion A * World.

Definition ret {A} (a : A) : M A := fun _ w => (Normal a, w).

Definition bind {A B} (c : M A) (k : A -> M B) : M B :=
  fun env w =>
    match c env w with
    | (Normal a, w') => k a env w'
    | (Throw e, w') => (Throw e, w')
    end.

Notation "x <- c ;; k" := (bind c (fun x => k))
  (at level 61, c at next level, right associativity).
Notation "c ;; k" := (bind c (fun _ => k))
  (at level 61, right associativity).

(** [try { c } catch (e) { h e }]. *)
Definition tryCatch {A} (c : M A) (h : JsError -> M A) : M A :=
  fun env w =>
    match c env w with
    | (Normal a, w') => (Normal a, w')
    | (Throw e, w') => h e env w'
    end.

Definition throw {A} (e : JsError) : M A := fun _ w => (Throw e, w).

Definition emit (e : Effect) : M unit :=
  fun _ w => (Normal tt, {| vars := vars w; trace := trace w ++ [e] |}).

Definition getVars : M Vars := fun _ w => (Normal (vars w), w).

Definition setVars (f : Vars -> Vars) : M unit :=
  fun _ w => (Normal tt, {| vars := f (vars w); trace := trace w |}).

Definition getEnv : M Env := fun env w => (Normal env, w).

(** [await] of a control-API call whose result is not used. *)
Definition await (c : ApiCall) : M unit :=
  fun env w =>
    let w' := {| vars := vars w; trace := trace w ++ [Call c] |} in
    match perform (we env) (calls (trace w)) c with
    | None => (Normal tt, w')
    | Some e => (Throw e, w')
    end.

(** [await] of a control-API query. *)
Definition awaitQuery {A} (c : ApiCall)
    (answer : WallpaperEngineApi -> list ApiCall -> JsError + A) : M A :=
  fun env w =>
    let w' := {| vars := vars w; trace := trace w ++ [Call c] |} in
    match answer (we env) (calls (trace w)) with
    | inr a => (Normal a, w')
    | inl e => (Throw e, w')
    end.

(** [for (const x of l) body]. *)
Fixpoint forOf {A} (l : list A) (body : A -> M unit) : M unit :=
  match l with
  | [] => ret tt
  | x :: r => body x ;; forOf r body
  end.

(** [client.publish(topic, payload, {retain})]. *)
Definition publish (topic payload : string) (retain : bool) : M unit :=
  emit (Publish topic payload retain).

(** [publishJson(client, topic, payload, {retain})]. *)
Definition publishJson (topic : string) (payload : jsval) (retain : bool) : M unit :=
  env <- getEnv ;;
  publish topic (JSON_stringify (js env) payload) retain.

(** [JSON.parse(msg)], which throws on a malformed text. *)
Definition parseJson (msg : string) : M jsval :=
  env <- getEnv ;;
  match JSON_parse (js env) msg with
  | Some v => ret v
  | None => throw (Error "SyntaxError")
  end.

(** [JSON.stringify(v)]. *)
Definition stringify (v : jsval) : M string :=
  env <- getEnv ;; ret (JSON_stringify (js env) v).

(** Assignments to the shared variables. *)
Definition setState (f : State -> State) : M unit :=
  setVars (fun v => {| wallpapers := wallpapers v; profiles := profiles v;
                       currentWallpaper := currentWallpaper v; state := f (state v) |}).

Definition set_showIcons (b : bool) (s : State) : State :=
  {| showIcons := b; muted := muted s; paused := paused s |}.
Definition set_muted (b : bool) (s : State) : State :=
  {| showIcons := showIcons s; muted := b; paused := paused s |}.
Definition set_paused (b : bool) (s : State) : State :=
  {| showIcons := showIcons s; muted := muted s; paused := b |}.

Definition setWallpapers (l : list WallpaperEntry) : M unit :=
  setVars (fun v => {| wallpapers := l; profiles := profiles v;
                       currentWallpaper := currentWallpaper v; state := state v |}).

Definition setProfiles (l : list string) : M unit :=
  setVars (fun v => {| wallpapers := wallpapers v; profiles := l;
                       currentWallpaper := currentWallpaper v; state := state v |}).

Definition setCurrentWallpaper (c : option (string * string * jsval)) : M unit :=
  setVars (fun v => {| wallpapers := wallpapers v; profiles := profiles v;
                       currentWallpaper := c; state := state v |}).

(** [w.id || w.path]. *)
Definition idOrPath (w : RawWallpaper) : string :=
  match raw_id w with
  | Some i => if i =? "" then raw_path w else i
  | None => raw_path w
  end.

(** [wp.map(w => ({id: w.id || w.path, title: w.title}))]. *)
Definition toEntries (wp : list RawWallpaper) : list WallpaperEntry :=
  map (fun w => {| id := idOrPath w; title := raw_title w |}) wp.

(** The value [JSON.stringify(wallpapers)] is applied to. *)
Definition wallpapersJson (ws : list WallpaperEntry) : jsval :=
  JArr (map (fun w => JObj [("id", JStr (id w)); ("title", JStr (title w))]) ws).

Definition stringsJson (l : list string) : jsval := JArr (map JStr l).

(** [haDevice(ip)] of main.ts and part_001. *)
Definition haDevice (ip : string) : jsval :=
  JObj [("identifiers", JArr [JStr ("wallpaper-engine-" ++ ip)]);
        ("manufacturer", JStr "Wallpaper Engine");
        ("model", JStr "Wallpaper Engine (local)");
        ("name", JStr ("Wallpaper Engine (" ++ ip ++ ")"))].

(** [haDevice(ip)] of part_000, which also has [via_device: null]. *)
Definition haDevice_part000 (ip : string) : jsval :=
  JObj [("identifiers", JArr [JStr ("wallpaper-engine-" ++ ip)]);
        ("manufacturer", JStr "Wallpaper Engine");
        ("model", JStr "Wallpaper Engine (local)");
        ("name", JStr ("Wallpaper Engine (" ++ ip ++ ")"));
        ("via_device", JNull)].

(** The events the program reacts to. *)
Inductive Event :=
| Connect
| MqttError
| Message (topic payload : string)
| Tick
| Sigint.

(** [REFRESH_INTERVAL]. *)
Definition REFRESH_INTERVAL : N := 60000%N.

(** An entity descriptor of [initialSyncAndDiscovery] (main.ts, part_001). *)
Record Entity := { e_type : string; e_id : string; e_name : string }.

Definition entities : list Entity :=
  [ {| e_type := "switch"; e_id := "show_icons"; e_name := "Show icons" |};
    {| e_type := "switch"; e_id := "muted"; e_name := "Muted" |};
    {| e_type := "switch"; e_id := "paused"; e_name := "Paused" |};
    {| e_type := "button"; e_id := "button_play"; e_name := "Play" |};
    {| e_type := "button"; e_id := "button_stop"; e_name := "Stop" |};
    {| e_type := "select"; e_id := "select_wallpaper"; e_name := "Wallpaper" |};
    {| e_type := "select"; e_id := "select_profile"; e_name := "Profile" |};
    {| e_type := "sensor"; e_id := "properties_instructions";
       e_name := "Wallpaper Properties (publish JSON to we/${nodeId}/properties/set)" |} ].

(** The registration message built in the loop of [initialSyncAndDiscovery]
    (main.ts, part_001). *)
Definition discoveryPayload (nodeId deviceName : string) (device : jsval)
    (e : Entity) : jsval :=
  JObj ([("name", JStr (deviceName ++ " " ++ e_name e));
         ("unique_id", JStr (nodeId ++ "_" ++ e_id e));
         ("device", device)] ++
        (if e_type e =? "switch" then
           [("command_topic", JStr (makeTopic ["we"; nodeId; e_id e; "set"]));
            ("state_topic", JStr (makeTopic ["we"; nodeId; e_id e; "state"]));
            ("payload_on", JStr "ON");
            ("payload_off", JStr "OFF");
            ("retain", JBool true)]
         else if e_type e =? "button" then
           [("command_topic", JStr (makeTopic ["we"; nodeId; e_id e; "set"]))]
         else if e_type e =? "select" then
           [("command_topic", JStr (makeTopic ["we"; nodeId; e_id e; "set"]));
            ("state_topic", JStr (makeTopic ["we"; nodeId; e_id e; "state"]));
            ("options", JArr [])]
         else if e_type e =? "sensor" then
           [("state_topic", JStr (makeTopic ["we"; nodeId; "properties"; "last_set"]))]
         else [])).

(** The re-registration of a select entity by the refresh loop. *)
Definition selectPayload (nodeId name objectId : string) (options : list string)
    (device : jsval) : jsval :=
  JObj [("name", JStr name);
        ("unique_id", JStr (nodeId ++ "_" ++ objectId));
        ("command_topic", JStr (makeTopic ["we"; nodeId; objectId; "set"]));
        ("state_topic", JStr (makeTopic ["we"; nodeId; objectId; "state"]));
        ("options", stringsJson options);
        ("device", device)].

(** ** Variant 1: src/src/main.ts *)

Module MainTs.
Section Closure.

(** [localIp] is computed once by [main]; the handlers close over it. *)
Variable localIp : string.

Definition nodeId : string := nodeIdOf localIp.
Definition deviceName : string := deviceNameOf localIp.

Definition initialSyncAndDiscovery : M unit :=
  let device := haDevice localIp in
  forOf entities (fun e =>
    publishJson (haDiscoveryTopic (e_type e) nodeId (e_id e))
                (discoveryPayload nodeId deviceName device e) true).

Definition subscribeCommandTopics : M unit :=
  let commands :=
    map (fun c => makeTopic ["we"; nodeId; c; "set"])
        ["show_icons"; "muted"; "paused"; "button_play"; "button_stop";
         "select_wallpaper"; "select_profile"; "properties"; "refresh"] in
  forOf commands (fun t => emit (Subscribe t)).

Definition refreshWallpapersProfiles : M unit :=
  tryCatch
    (wp <- awaitQuery ListWallpapers listWallpapers ;;
     setWallpapers (toEntries wp) ;;
     ps <- awaitQuery ListProfiles listProfiles ;;
     setProfiles (orEmpty ps) ;;
     v <- getVars ;;
     env <- getEnv ;;
     publishJson (haDiscoveryTopic "select" nodeId "select_wallpaper")
       (selectPayload nodeId "Wallpaper" "select_wallpaper"
          (map id (wallpapers v))
          (haDevice (getLocalIPv4 (networkInterfaces env)))) true ;;
     publishJson (haDiscoveryTopic "select" nodeId "select_profile")
       (selectPayload nodeId "Profile" "select_profile"
          (profiles v)
          (haDevice (getLocalIPv4 (networkInterfaces env)))) true ;;
     ws <- stringify (wallpapersJson (wallpapers v)) ;;
     publish (makeTopic ["we"; nodeId; "wallpapers"; "list"]) ws true ;;
     ps <- stringify (stringsJson (profiles v)) ;;
     publish (makeTopic ["we"; nodeId; "profiles"; "list"]) ps true)
    (fun _ => ret tt).

(** The [client.on('message', ...)] handler. *)
Definition onMessage (topic msg : string) : M unit :=
  tryCatch
    (if topic =? makeTopic ["we"; nodeId; "show_icons"; "set"] then
       (if isOn msg
        then await ShowIcons ;; setState (set_showIcons true)
        else await HideIcons ;; setState (set_showIcons false)) ;;
       v <- getVars ;;
       publish (makeTopic ["we"; nodeId; "show_icons"; "state"])
               (onOff (showIcons (state v))) true
     else if topic =? makeTopic ["we"; nodeId; "muted"; "set"] then
       (if isOn msg
        then await Mute ;; setState (set_muted true)
        else await Unmute ;; setState (set_muted false)) ;;
       v <- getVars ;;
       publish (makeTopic ["we"; nodeId; "muted"; "state"])
               (onOff (muted (state v))) true
     else if topic =? makeTopic ["we"; nodeId; "paused"; "set"] then
       await Pause ;;
       setState (fun s => set_paused (negb (paused s)) s) ;;
       v <- getVars ;;
       publish (makeTopic ["we"; nodeId; "paused"; "state"])
               (onOff (paused (state v))) true
     else if topic =? makeTopic ["we"; nodeId; "button_play"; "set"] then
       await Play ;;
       publish (makeTopic ["we"; nodeId; "button_play"; "state"]) "pressed" false
     else if topic =? makeTopic ["we"; nodeId; "button_stop"; "set"] then
       await Stop ;;
       publish (makeTopic ["we"; nodeId; "button_stop"; "state"]) "pressed" false
     else if topic =? makeTopic ["we"; nodeId; "select_wallpaper"; "set"] then
       await (Load msg None) ;;
       publish (makeTopic ["we"; nodeId; "select_wallpaper"; "state"]) msg true
     else if topic =? makeTopic ["we"; nodeId; "select_profile"; "set"] then
       await (ProfileLoad msg)
     else if topic =? makeTopic ["we"; nodeId; "properties"; "set"] then
       tryCatch
         (props <- parseJson msg ;;
          await (ApplyProperties props) ;;
          text <- stringify props ;;
          publish (makeTopic ["we"; nodeId; "properties"; "last_set"]) text true)
         (fun _ => ret tt)
     else if topic =? makeTopic ["we"; nodeId; "refresh"; "set"] then
       refreshWallpapersProfiles
     else ret tt)
    (fun _ => ret tt).

(** The [client.on('connect', ...)] handler. *)
Definition onConnect : M unit :=
  publish ("homeassistant/status/" ++ nodeId) "online" true ;;
  initialSyncAndDiscovery ;;
  subscribeCommandTopics ;;
  refreshWallpapersProfiles ;;
  emit (SetInterval REFRESH_INTERVAL).

(** One firing of the interval timer. *)
Definition onTick : M unit :=
  tryCatch refreshWallpapersProfiles (fun _ => ret tt).

(** The [process.on('SIGINT', ...)] handler. *)
Definition onSigint : M unit :=
  publish ("homeassistant/status/" ++ nodeId) "offline" true ;;
  emit ClientEnd ;;
  emit (ProcessExit 0).

Definition handle (ev : Event) : M unit :=
  match ev with
  | Connect => onConnect
  | MqttError => ret tt
  | Message topic payload => onMessage topic payload
  | Tick => onTick
  | Sigint => onSigint
  end.

End Closure.
End MainTs.

(** ** Variant 2: src/unnamed/part_000 (publishes the current wallpaper) *)

Module Part000.
Section Closure.

Variable localIp : string.

Definition nodeId : string := nodeIdOf localIp.
Definition deviceName : string := deviceNameOf localIp.

Definition initialSyncAndDiscovery : M unit :=
  let device := haDevice_part000 localIp in
  (* 1) switch: Show icons *)
  publishJson (haDiscoveryTopic "switch" nodeId "show_icons")
    (JObj [("name", JStr (deviceName ++ " Show icons"));
           ("unique_id", JStr (nodeId ++ "_show_icons"));
           ("command_topic", JStr (makeTopic ["we"; nodeId; "show_icons"; "set"]));
           ("state_topic", JStr (makeTopic ["we"; nodeId; "show_icons"; "state"]));
           ("payload_on", JStr "ON");
           ("payload_off", JStr "OFF");
           ("device", device);
           ("retain", JBool true)]) true ;;
  (* 2) switch: Muted *)
  publishJson (haDiscoveryTopic "switch" nodeId "muted")
    (JObj [("name", JStr (deviceName ++ " Muted"));
           ("unique_id", JStr (nodeId ++ "_muted"));
           ("command_topic", JStr (makeTopic ["we"; nodeId; "muted"; "set"]));
           ("state_topic", JStr (makeTopic ["we"; nodeId; "muted"; "state"]));
           ("payload_on", JStr "ON");
           ("payload_off", JStr "OFF");
           ("device", device);
           ("retain", JBool true)]) true ;;
  (* 3) switch: Paused *)
  publishJson (haDiscoveryTopic "switch" nodeId "paused")
    (JObj [("name", JStr (deviceName ++ " Paused"));
           ("unique_id", JStr (nodeId ++ "_paused"));
           ("command_topic", JStr (makeTopic ["we"; nodeId; "paused"; "set"]));
           ("state_topic", JStr (makeTopic ["we"; nodeId; "paused"; "state"]));
           ("payload_on", JStr "ON");
           ("payload_off", JStr "OFF");
           ("device", device);
           ("retain", JBool true)]) true ;;
  (* 4) button: Play *)
  publishJson (haDiscoveryTopic "button" nodeId "button_play")
    (JObj [("name", JStr (deviceName ++ " Play"));
           ("unique_id", JStr (nodeId ++ "_play"));
           ("command_topic", JStr (makeTopic ["we"; nodeId; "button_play"; "set"]));
           ("device", device)]) true ;;
  (* 5) button: Stop *)
  publishJson (haDiscoveryTopic "button" nodeId "button_stop")
    (JObj [("name", JStr (deviceName ++ " Stop"));
           ("unique_id", JStr (nodeId ++ "_stop"));
           ("command_topic", JStr (makeTopic ["we"; nodeId; "button_stop"; "set"]));
           ("device", device)]) true ;;
  (* 6) sensor: Current Wallpaper *)
  publishJson (haDiscoveryTopic "sensor" nodeId "current_wallpaper")
    (JObj [("name", JStr (deviceName ++ " Current Wallpaper"));
           ("unique_id", JStr (nodeId ++ "_current_wallpaper"));
           ("state_topic", JStr (makeTopic ["we"; nodeId; "current_wallpaper"; "state"]));
           ("json_attributes_topic",
              JStr (makeTopic ["we"; nodeId; "current_wallpaper"; "attributes"]));
           ("device", device);
           ("value_template", JStr "{{ value_json.title }}")]) true ;;
  (* 7) select: Wallpaper *)
  publishJson (haDiscoveryTopic "select" nodeId "select_wallpaper")
    (JObj [("name", JStr (deviceName ++ " Wallpaper"));
           ("unique_id", JStr (nodeId ++ "_select_wallpaper"));
           ("command_topic", JStr (makeTopic ["we"; nodeId; "select_wallpaper"; "set"]));
           ("state_topic", JStr (makeTopic ["we"; nodeId; "select_wallpaper"; "state"]));
           ("options", JArr []);
           ("device", device)]) true ;;
  (* 8) select: Profile *)
  publishJson (haDiscoveryTopic "select" nodeId "select_profile")
    (JObj [("name", JStr (deviceName ++ " Profile"));
           ("unique_id", JStr (nodeId ++ "_select_profile"));
           ("command_topic", JStr (makeTopic ["we"; nodeId; "select_profile"; "set"]));
           ("state_topic", JStr (makeTopic ["we"; nodeId; "select_profile"; "state"]));
           ("options", JArr []);
           ("device", device)]) true ;;
  (* 9) sensor: properties instructions *)
  publishJson (haDiscoveryTopic "sensor" nodeId "properties_instructions")
    (JObj [("name", JStr (deviceName ++ " Wallpaper Properties (publish JSON to we/"
                            ++ nodeId ++ "/properties/set)"));
           ("unique_id", JStr (nodeId ++ "_properties_instructions"));
           ("state_topic", JStr (makeTopic ["we"; nodeId; "properties"; "last_set"]));
           ("device", device)]) true.

Definition subscribeCommandTopics : M unit :=
  let commands :=
    [ makeTopic ["we"; nodeId; "show_icons"; "set"];
      makeTopic ["we"; nodeId; "show_icons"; "state"];
      makeTopic ["we"; nodeId; "muted"; "set"];
      makeTopic ["we"; nodeId; "paused"; "set"];
      makeTopic ["we"; nodeId; "button_play"; "set"];
      makeTopic ["we"; nodeId; "button_stop"; "set"];
      makeTopic ["we"; nodeId; "select_wallpaper"; "set"];
      makeTopic ["we"; nodeId; "select_profile"; "set"];
      makeTopic ["we"; nodeId; "properties"; "set"];
      makeTopic ["we"; nodeId; "refresh"; "set"] ] in
  forOf commands (fun t => emit (Subscribe t)).

(** [cw.properties || {}]. *)
Definition propertiesOrEmpty (cw : CurrentWallpaper) : jsval :=
  if truthy (cw_properties cw) then cw_properties cw else JObj [].

Definition publishCurrentWallpaper : M unit :=
  tryCatch
    (cw <- awaitQuery Current current ;;
     setCurrentWallpaper (Some (cw_id cw, cw_title cw, cw_properties cw)) ;;
     st <- stringify (JObj [("id", JStr (cw_id cw)); ("title", JStr (cw_title cw))]) ;;
     publish (makeTopic ["we"; nodeId; "current_wallpaper"; "state"]) st true ;;
     at_ <- stringify (JObj [("title", JStr (cw_title cw));
                             ("id", JStr (cw_id cw));
                             ("description", cw_description cw);
                             ("preview", cw_preview cw);
                             ("tags", cw_tags cw);
                             ("path", cw_path cw);
                             ("properties", cw_properties cw)]) ;;
     publish (makeTopic ["we"; nodeId; "current_wallpaper"; "attributes"]) at_ true ;;
     publish (makeTopic ["we"; nodeId; "select_wallpaper"; "state"]) (cw_id cw) true ;;
     ps <- stringify (propertiesOrEmpty cw) ;;
     publish (makeTopic ["we"; nodeId; "properties"; "last_set"]) ps true)
    (fun _ => ret tt).

Definition refreshWallpapersProfilesAndCurrent : M unit :=
  tryCatch
    (wp <- awaitQuery ListWallpapers listWallpapers ;;
     setWallpapers (toEntries wp) ;;
     profs <- awaitQuery ListProfiles listProfiles ;;
     setProfiles (orEmpty profs) ;;
     v <- getVars ;;
     publishJson (haDiscoveryTopic "select" nodeId "select_wallpaper")
       (selectPayload nodeId "Wallpaper" "select_wallpaper"
          (map id (wallpapers v)) (haDevice_part000 localIp)) true ;;
     publishJson (haDiscoveryTopic "select" nodeId "select_profile")
       (selectPayload nodeId "Profile" "select_profile"
          (profiles v) (haDevice_part000 localIp)) true ;;
     publishCurrentWallpaper ;;
     v <- getVars ;;
     ws <- stringify (wallpapersJson (wallpapers v)) ;;
     publish (makeTopic ["we"; nodeId; "wallpapers"; "list"]) ws true ;;
     ps <- stringify (stringsJson (profiles v)) ;;
     publish (makeTopic ["we"; nodeId; "profiles"; "list"]) ps true)
    (fun _ => ret tt).

(** The [client.on('message', ...)] handler. *)
Definition onMessage (topic msg : string) : M unit :=
  tryCatch
    (if topic =? makeTopic ["we"; nodeId; "show_icons"; "set"] then
       (if isOn_part000 msg
        then await ShowIcons ;; setState (set_showIcons true)
        else await HideIcons ;; setState (set_showIcons false)) ;;
       v <- getVars ;;
       publish (makeTopic ["we"; nodeId; "show_icons"; "state"])
               (onOff (showIcons (state v))) true
     else if topic =? makeTopic ["we"; nodeId; "muted"; "set"] then
       (if isOn_part000 msg
        then await Mute ;; setState (set_muted true)
        else await Unmute ;; setState (set_muted false)) ;;
       v <- getVars ;;
       publish (makeTopic ["we"; nodeId; "muted"; "state"])
               (onOff (muted (state v))) true
     else if topic =? makeTopic ["we"; nodeId; "paused"; "set"] then
       await Pause ;;
       setState (fun s => set_paused (negb (paused s)) s) ;;
       v <- getVars ;;
       publish (makeTopic ["we"; nodeId; "paused"; "state"])
               (onOff (paused (state v))) true
     else if topic =? makeTopic ["we"; nodeId; "button_play"; "set"] then
       await Play ;;
       publish (makeTopic ["we"; nodeId; "button_play"; "state"]) "pressed" false
     else if topic =? makeTopic ["we"; nodeId; "button_stop"; "set"] then
       await Stop ;;
       publish (makeTopic ["we"; nodeId; "button_stop"; "state"]) "pressed" false
     else if topic =? makeTopic ["we"; nodeId; "select_wallpaper"; "set"] then
       let selected := msg in
       await (Load selected None) ;;
       publishCurrentWallpaper
     else if topic =? makeTopic ["we"; nodeId; "select_profile"; "set"] then
       let profile := msg in
       await (ProfileLoad profile)
     else if topic =? makeTopic ["we"; nodeId; "properties"; "set"] then
       tryCatch
         (props <- parseJson msg ;;
          await (ApplyProperties props) ;;
          publishCurrentWallpaper)
         (fun _ => ret tt)
     else if topic =? makeTopic ["we"; nodeId; "refresh"; "set"] then
       refreshWallpapersProfilesAndCurrent
     else ret tt)
    (fun _ => ret tt).

Definition onConnect : M unit :=
  publish ("homeassistant/status/" ++ nodeId) "online" true ;;
  initialSyncAndDiscovery ;;
  subscribeCommandTopics ;;
  refreshWallpapersProfilesAndCurrent ;;
  emit (SetInterval REFRESH_INTERVAL).

Definition onTick : M unit :=
  tryCatch refreshWallpapersProfilesAndCurrent (fun _ => ret tt).

Definition onSigint : M unit :=
  publish ("homeassistant/status/" ++ nodeId) "offline" true ;;
  emit ClientEnd ;;
  emit (ProcessExit 0).

Definition handle (ev : Event) : M unit :=
  match ev with
  | Connect => onConnect
  | MqttError => ret tt
  | Message topic payload => onMessage topic payload
  | Tick => onTick
  | Sigint => onSigint
  end.

End Closure.
End Part000.

(** ** Variant 3: src/unnamed/part_001 (monitor selectors, startup defaults) *)

Module Part001.
Section Closure.

Variable localIp : string.

Definition nodeId : string := nodeIdOf localIp.
Definition deviceName : string := deviceNameOf localIp.

Definition initialSyncAndDiscovery : M unit :=
  let device := haDevice localIp in
  forOf entities (fun e =>
    publishJson (haDiscoveryTopic (e_type e) nodeId (e_id e))
                (discoveryPayload nodeId deviceName device e) true).

Definition subscribeCommandTopics : M unit :=
  let commands :=
    map (fun c => makeTopic ["we"; nodeId; c; "set"])
        ["show_icons"; "muted"; "paused"; "button_play"; "button_stop";
         "select_wallpaper"; "select_profile"; "properties"; "refresh"] in
  forOf commands (fun t => emit (Subscribe t)).

(** [`${w.title} (${w.id})`]. *)
Definition render (w : WallpaperEntry) : string :=
  title w ++ " (" ++ id w ++ ")".

(** The options pushed for one wallpaper:
    [['all',0,1,2].map(m => `${w.title} (${w.id})|${m==='all'?'all':m}`)]. *)
Definition optionsOf (w : WallpaperEntry) : list string :=
  map (fun m => render w ++ "|" ++ m) ["all"; "0"; "1"; "2"].

Definition refreshWallpapersProfiles : M unit :=
  tryCatch
    (wp <- awaitQuery ListWallpapers listWallpapers ;;
     setWallpapers (toEntries wp) ;;
     ps <- awaitQuery ListProfiles listProfiles ;;
     setProfiles (orEmpty ps) ;;
     v <- getVars ;;
     let wallpaperOptions := flat_map optionsOf (wallpapers v) in
     env <- getEnv ;;
     publishJson (haDiscoveryTopic "select" nodeId "select_wallpaper")
       (selectPayload nodeId "Wallpaper" "select_wallpaper"
          wallpaperOptions
          (haDevice (getLocalIPv4 (networkInterfaces env)))) true ;;
     publishJson (haDiscoveryTopic "select" nodeId "select_profile")
       (selectPayload nodeId "Profile" "select_profile"
          (profiles v)
          (haDevice (getLocalIPv4 (networkInterfaces env)))) true ;;
     ws <- stringify (wallpapersJson (wallpapers v)) ;;
     publish (makeTopic ["we"; nodeId; "wallpapers"; "list"]) ws true ;;
     ps <- stringify (stringsJson (profiles v)) ;;
     publish (makeTopic ["we"; nodeId; "profiles"; "list"]) ps true)
    (fun _ => ret tt).

(** The monitor indices of the ['all'] selector: [[0, 1, 2]]. *)
Definition allMonitors : list float := [0%float; 1%float; 2%float].

(** The [select_wallpaper] case of the message handler. *)
Definition selectWallpaper (msg : string) : M unit :=
  let parts := split "|" msg in
  let idWithTitle := nth 0 parts EmptyString in
  let monitorStr := nth_error parts 1 in
  env <- getEnv ;;
  (* [undefined] is [None]; a number is never [== undefined] *)
  let monitorIndex :=
    if match monitorStr with Some m => m =? "all" | None => false end
    then None
    else Some (parseInt (js env) monitorStr) in
  v <- getVars ;;
  let match_ := find (fun w => render w =? idWithTitle) (wallpapers v) in
  match monitorIndex with
  | None =>
      match match_ with
      | Some m =>
          forOf allMonitors (fun monitorIdOfAll =>
            tryCatch (await (Load (id m) (Some monitorIdOfAll))) (fun _ => ret tt))
      | None => ret tt
      end
  | Some i =>
      match match_ with
      | Some m => tryCatch (await (Load (id m) (Some i))) (fun _ => ret tt)
      | None => ret tt
      end
  end ;;
  publish (makeTopic ["we"; nodeId; "select_wallpaper"; "state"]) msg true.

(** The [client.on('message', ...)] handler. *)
Definition onMessage (topic msg : string) : M unit :=
  tryCatch
    (if topic =? makeTopic ["we"; nodeId; "show_icons"; "set"] then
       (if isOn msg
        then await ShowIcons ;; setState (set_showIcons true)
        else await HideIcons ;; setState (set_showIcons false)) ;;
       v <- getVars ;;
       publish (makeTopic ["we"; nodeId; "show_icons"; "state"])
               (onOff (showIcons (state v))) true
     else if topic =? makeTopic ["we"; nodeId; "muted"; "set"] then
       (if isOn msg
        then await Mute ;; setState (set_muted true)
        else await Unmute ;; setState (set_muted false)) ;;
       v <- getVars ;;
       publish (makeTopic ["we"; nodeId; "muted"; "state"])
               (onOff (muted (state v))) true
     else if topic =? makeTopic ["we"; nodeId; "paused"; "set"] then
       (* the source assigns [state.muted] here, and publishes [state.paused] *)
       (if isOn msg
        then await Pause ;; setState (set_muted true)
        else await Play ;; setState (set_muted false)) ;;
       v <- getVars ;;
       publish (makeTopic ["we"; nodeId; "paused"; "state"])
               (onOff (paused (state v))) true
     else if topic =? makeTopic ["we"; nodeId; "button_play"; "set"] then
       await Play ;;
       publish (makeTopic ["we"; nodeId; "button_play"; "state"]) "pressed" false
     else if topic =? makeTopic ["we"; nodeId; "button_stop"; "set"] then
       await Stop ;;
       publish (makeTopic ["we"; nodeId; "button_stop"; "state"]) "pressed" false
     else if topic =? makeTopic ["we"; nodeId; "select_wallpaper"; "set"] then
       selectWallpaper msg
     else if topic =? makeTopic ["we"; nodeId; "select_profile"; "set"] then
       await (ProfileLoad msg) ;;
       publish (makeTopic ["we"; nodeId; "select_profile"; "state"]) msg true
     else if topic =? makeTopic ["we"; nodeId; "properties"; "set"] then
       tryCatch
         (props <- parseJson msg ;;
          await (ApplyProperties props) ;;
          text <- stringify props ;;
          publish (makeTopic ["we"; nodeId; "properties"; "last_set"]) text true)
         (fun _ => ret tt)
     else if topic =? makeTopic ["we"; nodeId; "refresh"; "set"] then
       refreshWallpapersProfiles
     else ret tt)
    (fun _ => ret tt).

(** The [client.on('connect', ...)] handler, which first puts the
    application into the default state. *)
Definition onConnect : M unit :=
  publish ("homeassistant/status/" ++ nodeId) "online" true ;;
  tryCatch
    (await ShowIcons ;;
     await Unmute ;;
     await Play ;;
     setState (fun _ => {| showIcons := true; muted := false; paused := false |}))
    (fun _ => ret tt) ;;
  initialSyncAndDiscovery ;;
  subscribeCommandTopics ;;
  refreshWallpapersProfiles ;;
  emit (SetInterval REFRESH_INTERVAL).

Definition onTick : M unit :=
  tryCatch refreshWallpapersProfiles (fun _ => ret tt).

Definition onSigint : M unit :=
  publish ("homeassistant/status/" ++ nodeId) "offline" true ;;
  emit ClientEnd ;;
  emit (ProcessExit 0).

Definition handle (ev : Event) : M unit :=
  match ev with
  | Connect => onConnect
  | MqttError => ret tt
  | Message topic payload => onMessage topic payload
  | Tick => onTick
  | Sigint => onSigint
  end.

End Closure.
End Part001.

(** ** The three variants side by side *)

Inductive Variant := VMainTs | VPart000 | VPart001.

Definition onMessage (v : Variant) (localIp topic msg : string) : M unit :=
  match v with
  | VMainTs => MainTs.onMessage localIp topic msg
  | VPart000 => Part000.onMessage localIp topic msg
  | VPart001 => Part001.onMessage localIp topic msg
  end.

Definition refresh (v : Variant) (localIp : string) : M unit :=
  match v with
  | VMainTs => MainTs.refreshWallpapersProfiles localIp
  | VPart000 => Part000.refreshWallpapersProfilesAndCurrent localIp
  | VPart001 => Part001.refreshWallpapersProfiles localIp
  end.

Definition handle (v : Variant) (localIp : string) (ev : Event) : M unit :=
  match v with
  | VMainTs => MainTs.handle localIp ev
  | VPart000 => Part000.handle localIp ev
  | VPart001 => Part001.handle localIp ev
  end.

(** The command topic and the state topic of an entity. *)
Definition commandTopic (localIp entity : string) : string :=
  makeTopic ["we"; nodeIdOf localIp; entity; "set"].

Definition stateTopic (localIp entity : string) : string :=
  makeTopic ["we"; nodeIdOf localIp; entity; "state"].

(** The three toggles, their entity names and their shadow booleans. *)
Inductive Toggle := Icons | Muted | Paused.

Definition toggleEntity (t : Toggle) : string :=
  match t with
  | Icons => "show_icons"
  | Muted => "muted"
  | Paused => "paused"
  end.

Definition shadow (t : Toggle) (s : State) : bool :=
  match t with
  | Icons => showIcons s
  | Muted => muted s
  | Paused => paused s
  end.

(** How a variant reads a toggle payload. *)
Definition interpret (v : Variant) (msg : string) : bool :=
  match v with
  | VPart000 => isOn_part000 msg
  | VMainTs | VPart001 => isOn msg
  end.

Definition enableCall (t : Toggle) : ApiCall :=
  match t with
  | Icons => ShowIcons
  | Muted => Mute
  | Paused => Pause
  end.

Definition disableCall (t : Toggle) : ApiCall :=
  match t with
  | Icons => HideIcons
  | Muted => Unmute
  | Paused => Play
  end.

(** The control call a toggle command leads to: main.ts and part_000 call
    [pause()] whatever the payload of a [paused] command is. *)
Definition toggleCall (v : Variant) (t : Toggle) (msg : string) : ApiCall :=
  match t, v with
  | Paused, VMainTs | Paused, VPart000 => Pause
  | _, _ => if interpret v msg then enableCall t else disableCall t
  end.

(** The sixteen spellings that equal "true" when case is ignored. *)
Definition trueSpellings : list string :=
  [ "true"; "truE"; "trUe"; "trUE"; "tRue"; "tRuE"; "tRUe"; "tRUE";
    "True"; "TruE"; "TrUe"; "TrUE"; "TRue"; "TRuE"; "TRUe"; "TRUE" ].

(** The momentary acknowledgement topics. *)
Definition isButtonState (localIp topic : string) : Prop :=
  topic = stateTopic localIp "button_play" \/ topic = stateTopic localIp "button_stop".

(** Every publish is retained, except the ["pressed"] acknowledgement of a
    button. *)
Definition retainedOrPressed (localIp : string) (e : Effect) : Prop :=
  match e with
  | Publish t p r => r = true \/ (p = "pressed" /\ isButtonState localIp t)
  | _ => True
  end.

(** A handler only appends to the trace, and what it appends satisfies [P]. *)
Definition appends (P : Effect -> Prop) {A} (c : M A) : Prop :=
  forall env w, exists new,
    trace (snd (c env w)) = (trace w ++ new)%list /\ Forall P new.

(** The topic the accepted properties are published on. *)
Definition lastSetTopic (localIp : string) : string :=
  makeTopic ["we"; nodeIdOf localIp; "properties"; "last_set"].

(** What a handler run added to the trace. *)
Definition added (w w' : World) : list Effect :=
  skipn (length (trace w)) (trace w').

(** Is there a publish on this topic among the effects? *)
Definition publishesTo (topic : string) (effects : list Effect) : Prop :=
  exists payload retain, In (Publish topic payload retain) effects.

(** Is this call a property-apply call? *)
Definition isApply (c : ApiCall) : bool :=
  match c with
  | ApplyProperties _ => true
  | _ => false
  end.

(** ** Sample environments for the examples *)

(** The text [{"fps":30}] and the object it denotes. *)
Definition fpsText : string := "{" ++ dquote ++ "fps" ++ dquote ++ ":30}".
Definition fpsObject : jsval := JObj [("fps", JNum 30%float)].

(** A runtime for the sample runs. It agrees with ECMAScript where those
    runs look: [JSON.parse] accepts the text above (and is given no other
    well-formed text); [JSON.stringify] prints the object above and the
    empty object, and writes the same [{}] for any other value, whose text
    no sample run inspects; [parseInt] reads the monitor digits 0, 1 and 2
    and answers NaN for [undefined]; the sample runs give it nothing else
    (for any other text it answers NaN, which is not what ECMAScript does
    for a text that starts with digits). *)
Definition sampleJs : ECMAScript :=
  {| JSON_parse := fun s => if s =? fpsText then Some fpsObject else None;
     JSON_stringify := fun v =>
       match v with
       | JObj [(k, JNum x)] =>
           if (k =? "fps") && PrimFloat.eqb x 30%float then fpsText else "{}"
       | _ => "{}"
       end;
     parseInt := fun s =>
       match s with
       | Some m =>
           if m =? "0" then 0%float
           else if m =? "1" then 1%float
           else if m =? "2" then 2%float
           else PrimFloat.nan
       | None => PrimFloat.nan
       end |}.

Definition sunsetRaw : RawWallpaper :=
  {| raw_id := Some "abc123"; raw_path := "C:/wallpapers/sunset"; raw_title := "Sunset" |}.

Definition sunset : WallpaperEntry := {| id := "abc123"; title := "Sunset" |}.

Definition sunsetCurrent : CurrentWallpaper :=
  {| cw_id := "abc123"; cw_title := "Sunset"; cw_description := JUndefined;
     cw_preview := JUndefined; cw_tags := JArr []; cw_path := JStr "C:/wallpapers/sunset";
     cw_properties := JUndefined |}.

(** An application in which every call resolves. *)
Definition healthyApi : WallpaperEngineApi :=
  {| perform := fun _ _ => None;
     listWallpapers := fun _ => inr [sunsetRaw];
     listProfiles := fun _ => inr (Some ["Work"]);
     current := fun _ => inr sunsetCurrent |}.

(** An application in which every call rejects. *)
Definition deadApi : WallpaperEngineApi :=
  {| perform := fun _ _ => Some (Error "ECONNREFUSED");
     listWallpapers := fun _ => inl (Error "ECONNREFUSED");
     listProfiles := fun _ => inl (Error "ECONNREFUSED");
     current := fun _ => inl (Error "ECONNREFUSED") |}.

(** An application whose wallpaper catalog query alone rejects. *)
Definition noCatalogApi : WallpaperEngineApi :=
  {| perform := fun _ _ => None;
     listWallpapers := fun _ => inl (Error "listWallpapers failed");
     listProfiles := fun _ => inr (Some ["Work"]);
     current := fun _ => inr sunsetCurrent |}.

(** An application whose current-wallpaper query alone rejects. *)
Definition noCurrentApi : WallpaperEngineApi :=
  {| perform := fun _ _ => None;
     listWallpapers := fun _ => inr [sunsetRaw];
     listProfiles := fun _ => inr (Some ["Work"]);
     current := fun _ => inl (Error "current failed") |}.

Definition homeLan : NetworkInterfaces :=
  [ ("lo", Some [ {| family := "IPv4"; internal := true; address := "127.0.0.1" |} ]);
    ("eth0", Some [ {| family := "IPv6"; internal := false; address := "fe80::1" |};
                    {| family := "IPv4"; internal := false; address := "10.0.0.7" |} ]);
    ("wlan0", Some [ {| family := "IPv4"; internal := false; address := "192.168.178.42" |} ]) ].

Definition envWith (api : WallpaperEngineApi) : Env :=
  {| js := sampleJs; we := api; networkInterfaces := homeLan |}.

(** The world right after startup, and one whose catalog holds Sunset. *)
Definition startWorld : World := {| vars := initialVars; trace := [] |}.

Definition sunsetWorld : World :=
  {| vars := {| wallpapers := [sunset]; profiles := ["Work"];
                currentWallpaper := None; state := state initialVars |};
     trace := [] |}.

(** ** Notions for the further properties *)

(** All addresses of the enumeration, in the order the loops of
    [getLocalIPv4] visit them. *)
Definition allAddrs (ifaces : NetworkInterfaces) : list NetworkInterfaceInfo :=
  flat_map (fun e => orEmpty (snd e)) ifaces.

(** The entities that have a command topic. *)
Definition commandEntities : list string :=
  ["show_icons"; "muted"; "paused"; "button_play"; "button_stop";
   "select_wallpaper"; "select_profile"; "properties"; "refresh"].

(** The topic of the presence messages. *)
Definition statusTopic (localIp : string) : string :=
  "homeassistant/status/" ++ nodeIdOf localIp.

(** A handler that always completes normally. *)
Definition neverThrows {A} (c : M A) : Prop :=
  forall env w, exists a w', c env w = (Normal a, w').

(** A handler that leaves the part [f] of the shared variables as it was. *)
Definition keeps {X} (f : Vars -> X) {A} (c : M A) : Prop :=
  forall env w, f (vars (snd (c env w))) = f (vars w).

(** The two catalogs. *)
Definition catalogs (v : Vars) : list WallpaperEntry * list string :=
  (wallpapers v, profiles v).


(** Is the control call a wallpaper load? *)
Definition isLoad (c : ApiCall) : bool :=
  match c with
  | Load _ _ => true
  | _ => false
  end.

(** A retained registration message on a discovery topic of the node. *)
Definition isRegistration (nodeId : string) (e : Effect) : Prop :=
  exists domain objectId payload,
    e = Publish (haDiscoveryTopic domain nodeId objectId) payload true.

(** The topics a variant subscribes to on connect, in order. *)
Definition subscribed (v : Variant) (localIp : string) : list string :=
  match v with
  | VPart000 =>
      commandTopic localIp "show_icons" :: stateTopic localIp "show_icons" ::
      map (commandTopic localIp) (tl commandEntities)
  | VMainTs | VPart001 => map (commandTopic localIp) commandEntities
  end.

Definition initialSyncAndDiscovery (v : Variant) (localIp : string) : M unit :=
  match v with
  | VMainTs => MainTs.initialSyncAndDiscovery localIp
  | VPart000 => Part000.initialSyncAndDiscovery localIp
  | VPart001 => Part001.initialSyncAndDiscovery localIp
  end.

Definition subscribeCommandTopics (v : Variant) (localIp : string) : M unit :=
  match v with
  | VMainTs => MainTs.subscribeCommandTopics localIp
  | VPart000 => Part000.subscribeCommandTopics localIp
  | VPart001 => Part001.subscribeCommandTopics localIp
  end.

(** The default shadow state. *)
Definition defaultState : State :=
  {| showIcons := true; muted := false; paused := false |}.

(** What the startup block of part_001 comes to, from the calls made
    before it and the shadow state before it: the calls it makes (each one
    only if the ones before it resolved) and the shadow state after it. *)
Definition startupOutcome (api : WallpaperEngineApi) (history : list ApiCall)
    (s : State) : list ApiCall * State :=
  match perform api history ShowIcons with
  | Some _ => ([ShowIcons], s)
  | None =>
      match perform api (history ++ [ShowIcons]) Unmute with
      | Some _ => ([ShowIcons; Unmute], s)
      | None =>
          match perform api (history ++ [ShowIcons; Unmute]) Play with
          | Some _ => ([ShowIcons; Unmute; Play], s)
          | None => ([ShowIcons; Unmute; Play], defaultState)
          end
      end
  end.

(** The kinds of effect each kind of event may have. *)
Definition allowedEffect (ev : Event) (e : Effect) : Prop :=
  match ev, e with
  | Connect, (ClientEnd | ProcessExit _) => False
  | Connect, _ => True
  | (Message _ _ | Tick), (Call _ | Publish _ _ _) => True
  | Sigint, (Publish _ _ _ | ClientEnd | ProcessExit _) => True
  | _, _ => False
  end.

(** A publish or subscription within the topics of the node: its presence
    topic, its discovery topics, and the four-segment topics under
    [we/<node>]. *)
Definition inNamespace (localIp : string) (e : Effect) : Prop :=
  match e with
  | Publish t _ _ =>
      t = statusTopic localIp \/
      (exists domain objectId,
         t = haDiscoveryTopic domain (nodeIdOf localIp) objectId) \/
      (exists entity leaf, t = makeTopic ["we"; nodeIdOf localIp; entity; leaf])
  | Subscribe t =>
      exists entity, t = makeTopic ["we"; nodeIdOf localIp; entity; "set"] \/
                     t = makeTopic ["we"; nodeIdOf localIp; entity; "state"]
  | _ => True
  end.

(** * Properties *)

(** ** Strings *)

Lemma append_cancel_l (p a b : string) : p ++ a = p ++ b -> a = b.
Proof.
  induction p as [|c p IH]; simpl; intros H.
  - exact H.
  - injection H as H. auto.
Qed.

Lemma length_append (a b : string) :
  String.length (a ++ b) = String.length a + String.length b.
Proof. induction a as [|c a IH]; simpl; [reflexivity | now rewrite IH]. Qed.

Lemma append_cancel_r (a b s : string) : a ++ s = b ++ s -> a = b.
Proof.
  revert b. induction a as [|c a IH]; intros [|d b] H; simpl in H.
  - reflexivity.
  - apply (f_equal String.length) in H. simpl in H.
    rewrite length_append in H. lia.
  - apply (f_equal String.length) in H. simpl in H.
    rewrite length_append in H. lia.
  - injection H as Hc H. subst d. f_equal. auto.
Qed.

(** Two topics of one node with the same last segment are equal exactly
    when their entity segments are. *)
Lemma topic_eqb (n a b last : string) :
  (makeTopic ["we"; n; a; last] =? makeTopic ["we"; n; b; last]) = (a =? b).
Proof.
  destruct (String.eqb_spec a b) as [->|Hne].
  - apply String.eqb_refl.
  - apply String.eqb_neq. intros H. apply Hne.
    unfold makeTopic, join in H. cbn [String.concat] in H.
    apply (append_cancel_l "we") in H.
    apply (append_cancel_l "/") in H.
    apply append_cancel_l in H.
    apply (append_cancel_l "/") in H.
    now apply append_cancel_r in H.
Qed.

(** ** Toggle commands *)

Ltac topics :=
  unfold onMessage, MainTs.onMessage, Part000.onMessage, Part001.onMessage,
    commandTopic, stateTopic, MainTs.nodeId, Part000.nodeId, Part001.nodeId,
    toggleEntity;
  rewrite ?topic_eqb;
  cbn [String.eqb Ascii.eqb Bool.eqb].

Ltac exec :=
  cbv beta iota zeta delta
    [tryCatch bind ret throw await awaitQuery publish publishJson stringify
     parseJson emit getVars getEnv setState setWallpapers setProfiles
     setCurrentWallpaper setVars
     MainTs.nodeId Part000.nodeId Part001.nodeId];
  cbn [vars trace fst snd].

Lemma toggle_accepted_trace (v : Variant) (localIp : string) (t : Toggle)
    (msg : string) (env : Env) (w : World) :
  perform (we env) (calls (trace w)) (toggleCall v t msg) = None ->
  exists w',
    onMessage v localIp (commandTopic localIp (toggleEntity t)) msg env w
      = (Normal tt, w') /\
    trace w' = (trace w ++
      [Call (toggleCall v t msg);
       Publish (stateTopic localIp (toggleEntity t))
               (onOff (shadow t (state (vars w')))) true])%list.
Proof.
  intros H.
  destruct v, t; topics; unfold toggleCall, interpret in *; exec.
  all: try (destruct (isOn msg)); try (destruct (isOn_part000 msg));
    cbn [enableCall disableCall] in *; rewrite H;
    eexists; split; try reflexivity; cbn [vars trace state shadow];
    rewrite <- app_assoc; reflexivity.
Qed.

Lemma calls_app (a b : list Effect) : calls (a ++ b) = (calls a ++ calls b)%list.
Proof.
  induction a as [|e a IH]; simpl; [reflexivity|].
  destruct e; simpl; now rewrite IH.
Qed.

Lemma publishes_app (a b : list Effect) :
  publishes (a ++ b) = (publishes a ++ publishes b)%list.
Proof.
  induction a as [|e a IH]; simpl; [reflexivity|].
  destruct e; simpl; now rewrite IH.
Qed.

(** C2, at the input where part_001 breaks it. The shadow state is the
    start state (not paused, not muted), the command is "ON" on the paused
    command topic, and pause() resolves. The paused case of part_001
    assigns the muted shadow boolean: the paused shadow boolean stays
    false, the muted one becomes true, and the value published on the
    paused state topic is the stale "OFF", not the "ON" of the command
    just accepted. The sibling cases assign their own boolean and publish
    it: the muted case of the same file gives muted true and "ON", and the
    paused case of main.ts and of part_000 gives paused true and "ON". *)
Theorem part001_pause_on_publishes_off :
  isOn "ON" = true /\
  state (vars startWorld) = {| showIcons := true; muted := false; paused := false |} /\
  perform (we (envWith healthyApi)) (calls (trace startWorld)) Pause = None /\
  Part001.onMessage "10.0.0.7" (commandTopic "10.0.0.7" "paused") "ON"
    (envWith healthyApi) startWorld
  = (Normal tt,
     {| vars := {| wallpapers := []; profiles := []; currentWallpaper := None;
                   state := {| showIcons := true; muted := true; paused := false |} |};
        trace := [Call Pause;
                  Publish (stateTopic "10.0.0.7" "paused") "OFF" true] |}) /\
  Part001.onMessage "10.0.0.7" (commandTopic "10.0.0.7" "muted") "ON"
    (envWith healthyApi) startWorld
  = (Normal tt,
     {| vars := {| wallpapers := []; profiles := []; currentWallpaper := None;
                   state := {| showIcons := true; muted := true; paused := false |} |};
        trace := [Call Mute;
                  Publish (stateTopic "10.0.0.7" "muted") "ON" true] |}) /\
  MainTs.onMessage "10.0.0.7" (commandTopic "10.0.0.7" "paused") "ON"
    (envWith healthyApi) startWorld
  = (Normal tt,
     {| vars := {| wallpapers := []; profiles := []; currentWallpaper := None;
                   state := {| showIcons := true; muted := false; paused := true |} |};
        trace := [Call Pause;
                  Publish (stateTopic "10.0.0.7" "paused") "ON" true] |}) /\
  Part000.onMessage "10.0.0.7" (commandTopic "10.0.0.7" "paused") "ON"
    (envWith healthyApi) startWorld
  = (Normal tt,
     {| vars := {| wallpapers := []; profiles := []; currentWallpaper := None;
                   state := {| showIcons := true; muted := false; paused := true |} |};
        trace := [Call Pause;
                  Publish (stateTopic "10.0.0.7" "paused") "ON" true] |}).
Proof. repeat split. Qed.

(** In part_001 a [paused] command writes the [muted] shadow boolean and
    leaves [paused] as it was, so the state published for [paused] is the
    value from before the command. *)
Lemma part001_paused_writes_muted (localIp msg : string) (env : Env) (w : World) :
  perform (we env) (calls (trace w)) (toggleCall VPart001 Paused msg) = None ->
  exists w',
    Part001.onMessage localIp (commandTopic localIp "paused") msg env w
      = (Normal tt, w') /\
    paused (state (vars w')) = paused (state (vars w)) /\
    muted (state (vars w')) = isOn msg.
Proof.
  intros H. topics. unfold toggleCall, interpret in H. exec.
  destruct (isOn msg); cbn [enableCall disableCall] in H; rewrite H;
    eexists; (split; [reflexivity|]); split; reflexivity.
Qed.

Lemma toggle_rejected_trace (v : Variant) (localIp : string) (t : Toggle)
    (msg : string) (env : Env) (w : World) (e : JsError) :
  perform (we env) (calls (trace w)) (toggleCall v t msg) = Some e ->
  onMessage v localIp (commandTopic localIp (toggleEntity t)) msg env w
  = (Normal tt,
     {| vars := vars w; trace := trace w ++ [Call (toggleCall v t msg)] |}).
Proof.
  intros H.
  destruct v, t; topics; unfold toggleCall, interpret in *; exec.
  all: try (destruct (isOn msg)); try (destruct (isOn_part000 msg));
    cbn [enableCall disableCall] in *; rewrite H; reflexivity.
Qed.

(** C10: when the control call of a toggle command rejects, the handler
    still completes normally (the enclosing catch takes the error), every
    shared variable, so also the shadow boolean, is what it was, and the
    trace gains the rejected call and no publish. *)
Theorem toggle_rejected_absorbed (v : Variant) (localIp : string) (t : Toggle)
    (msg : string) (env : Env) (w : World) (e : JsError) :
  perform (we env) (calls (trace w)) (toggleCall v t msg) = Some e ->
  exists w',
    onMessage v localIp (commandTopic localIp (toggleEntity t)) msg env w
      = (Normal tt, w') /\
    shadow t (state (vars w')) = shadow t (state (vars w)) /\
    vars w' = vars w /\
    trace w' = (trace w ++ [Call (toggleCall v t msg)])%list /\
    publishes (trace w') = publishes (trace w).
Proof.
  intros H.
  exists {| vars := vars w; trace := trace w ++ [Call (toggleCall v t msg)] |}.
  split; [exact (toggle_rejected_trace v localIp t msg env w e H)|].
  cbn [vars trace]. rewrite publishes_app. cbn [publishes].
  rewrite app_nil_r. repeat split.
Qed.

Lemma toggle_rejected_absorbed_witness :
  exists w',
    onMessage VMainTs "10.0.0.7" (commandTopic "10.0.0.7" "show_icons") "OFF"
      (envWith deadApi) startWorld = (Normal tt, w') /\
    showIcons (state (vars w')) = true /\
    vars w' = initialVars /\
    trace w' = [Call HideIcons] /\
    publishes (trace w') = [].
Proof.
  exact (toggle_rejected_absorbed VMainTs "10.0.0.7" Icons "OFF"
           (envWith deadApi) startWorld (Error "ECONNREFUSED") eq_refl).
Defined.

(** ** Reading a toggle payload *)

Lemma lowerChar_t (c : ascii) :
  lowerChar c = "t"%char -> c = "t"%char \/ c = "T"%char.
Proof.
  destruct c as [[] [] [] [] [] [] [] []]; vm_compute; intros H;
    solve [discriminate H | left; reflexivity | right; reflexivity].
Qed.

Lemma lowerChar_r (c : ascii) :
  lowerChar c = "r"%char -> c = "r"%char \/ c = "R"%char.
Proof.
  destruct c as [[] [] [] [] [] [] [] []]; vm_compute; intros H;
    solve [discriminate H | left; reflexivity | right; reflexivity].
Qed.

Lemma lowerChar_u (c : ascii) :
  lowerChar c = "u"%char -> c = "u"%char \/ c = "U"%char.
Proof.
  destruct c as [[] [] [] [] [] [] [] []]; vm_compute; intros H;
    solve [discriminate H | left; reflexivity | right; reflexivity].
Qed.

Lemma lowerChar_e (c : ascii) :
  lowerChar c = "e"%char -> c = "e"%char \/ c = "E"%char.
Proof.
  destruct c as [[] [] [] [] [] [] [] []]; vm_compute; intros H;
    solve [discriminate H | left; reflexivity | right; reflexivity].
Qed.

(** [msg.toLowerCase() === 'true'] holds for the sixteen spellings of
    "true" and for nothing else. *)
Lemma toLowerCase_true (s : string) :
  toLowerCase s = "true" <-> In s trueSpellings.
Proof.
  split.
  - destruct s as [|c1 [|c2 [|c3 [|c4 [|c5 r]]]]]; simpl; try discriminate.
    intros H. injection H as H1 H2 H3 H4.
    apply lowerChar_t in H1. apply lowerChar_r in H2.
    apply lowerChar_u in H3. apply lowerChar_e in H4.
    destruct H1, H2, H3, H4; subst; tauto.
  - intros H. simpl in H.
    repeat (destruct H as [<- | H]; [reflexivity|]). contradiction.
Qed.

Lemma isOn_spec (s : string) :
  isOn s = true <-> s = "ON" \/ s = "1" \/ In s trueSpellings.
Proof.
  unfold isOn, includes. cbn [existsb].
  rewrite orb_false_r, !orb_true_iff, !String.eqb_eq, toLowerCase_true.
  tauto.
Qed.

Lemma isOn_part000_same (s : string) : isOn_part000 s = isOn s.
Proof.
  unfold isOn_part000, isOn, includes. cbn [existsb]. now rewrite orb_false_r.
Qed.

(** Whatever the outcome, the first thing the handling of a toggle command
    does is the control call [toggleCall] names. *)
Lemma toggle_first_call (v : Variant) (localIp : string) (t : Toggle)
    (msg : string) (env : Env) (w : World) :
  exists rest,
    trace (snd (onMessage v localIp (commandTopic localIp (toggleEntity t)) msg env w))
      = (trace w ++ Call (toggleCall v t msg) :: rest)%list.
Proof.
  destruct (perform (we env) (calls (trace w)) (toggleCall v t msg)) as [e|] eqn:H.
  - rewrite (toggle_rejected_trace v localIp t msg env w e H).
    exists []. reflexivity.
  - destruct (toggle_accepted_trace v localIp t msg env w H) as (w' & Hrun & Htr).
    rewrite Hrun. eexists. exact Htr.
Qed.

(** C6: a toggle payload is read as true exactly when it is "ON", "1" or
    one of the spellings of "true" in any mix of cases; so "ON", "1",
    "true", "TRUE" and "tRuE" are true and the empty string and "OFF" are
    false. All three variants read it the same way, and the icons and mute
    commands (in part_001 the pause command too) make the enabling call on
    true and the disabling call on false. *)
Theorem toggle_payload_interpretation :
  (forall v s, interpret v s = true <->
               s = "ON" \/ s = "1" \/ In s trueSpellings) /\
  (forall v, map (interpret v) ["ON"; "1"; "true"; "TRUE"; "tRuE"]
             = [true; true; true; true; true]) /\
  (forall v, interpret v "" = false /\ interpret v "OFF" = false) /\
  (forall v localIp t msg env w,
     t <> Paused \/ v = VPart001 ->
     exists rest,
       trace (snd (onMessage v localIp (commandTopic localIp (toggleEntity t)) msg env w))
       = (trace w ++
          Call (if interpret v msg then enableCall t else disableCall t) :: rest)%list).
Proof.
  split; [|split; [|split]].
  - intros v s. destruct v; unfold interpret; rewrite ?isOn_part000_same;
      apply isOn_spec.
  - intros []; reflexivity.
  - intros []; split; reflexivity.
  - intros v localIp t msg env w Ht.
    destruct (toggle_first_call v localIp t msg env w) as [rest Hrest].
    exists rest. rewrite Hrest.
    destruct t, v; try reflexivity; destruct Ht as [Ht|Ht];
      solve [contradiction | discriminate Ht].
Qed.

Lemma toggle_payload_interpretation_witness :
  exists rest,
    trace (snd (onMessage VPart000 "10.0.0.7" (commandTopic "10.0.0.7" "muted") "tRuE"
                  (envWith healthyApi) startWorld))
    = Call Mute :: rest.
Proof.
  destruct toggle_payload_interpretation as (_ & _ & _ & H).
  refine (H VPart000 "10.0.0.7" Muted "tRuE" (envWith healthyApi) startWorld _).
  left. discriminate.
Defined.

(** ** The node identifier *)

Lemma occurs_append (c : ascii) (a b : string) :
  occurs c (a ++ b) = occurs c a || occurs c b.
Proof.
  induction a as [|x a IH]; simpl; [reflexivity|].
  now rewrite IH, orb_assoc.
Qed.

Lemma replaceAll_removes (c d : ascii) (s : string) :
  Ascii.eqb d c = false -> occurs c (replaceAll c d s) = false.
Proof.
  intros Hd. induction s as [|x s IH]; simpl; [reflexivity|].
  rewrite IH, orb_false_r.
  destruct (Ascii.eqb x c) eqn:Hx; [exact Hd | exact Hx].
Qed.

Lemma replaceAll_get (c d : ascii) (s : string) (i : nat) :
  String.get i (replaceAll c d s)
  = option_map (fun x => if Ascii.eqb x c then d else x) (String.get i s).
Proof.
  revert i. induction s as [|x s IH]; intros i; simpl; [reflexivity|].
  destruct i; simpl; [reflexivity | apply IH].
Qed.

Lemma get_append_r (a b : string) (i : nat) :
  String.get (String.length a + i) (a ++ b) = String.get i b.
Proof. induction a as [|x a IH]; simpl; [reflexivity | exact IH]. Qed.

(** C9: the node identifier is a function of the interface enumeration
    (equal enumerations give equal identifiers), it contains no '.', and it
    is the fixed prefix followed by the chosen address with each '.'
    replaced by '_' and every other character kept. It is the identifier
    each variant uses once [localIp] is the resolved address. *)
Theorem nodeId_deterministic_no_dot (ifaces1 ifaces2 : NetworkInterfaces) :
  ifaces1 = ifaces2 ->
  resolveNodeId ifaces1 = resolveNodeId ifaces2 /\
  occurs "." (resolveNodeId ifaces1) = false /\
  (forall i, String.get (String.length "wallpaper_engine_" + i) (resolveNodeId ifaces1)
             = option_map (fun x => if Ascii.eqb x "." then "_"%char else x)
                          (String.get i (getLocalIPv4 ifaces1))) /\
  MainTs.nodeId (getLocalIPv4 ifaces1) = resolveNodeId ifaces1 /\
  Part000.nodeId (getLocalIPv4 ifaces1) = resolveNodeId ifaces1 /\
  Part001.nodeId (getLocalIPv4 ifaces1) = resolveNodeId ifaces1.
Proof.
  intros ->. split; [reflexivity|]. split; [|split].
  - unfold resolveNodeId, nodeIdOf. rewrite occurs_append.
    rewrite replaceAll_removes by reflexivity. reflexivity.
  - intros i. unfold resolveNodeId, nodeIdOf.
    rewrite get_append_r. apply replaceAll_get.
  - repeat split.
Qed.

Lemma nodeId_deterministic_no_dot_witness :
  resolveNodeId homeLan = "wallpaper_engine_192_168_178_42" /\
  occurs "." (resolveNodeId homeLan) = false.
Proof.
  destruct (nodeId_deterministic_no_dot homeLan homeLan eq_refl) as (_ & H & _).
  split; [reflexivity | exact H].
Defined.

(** ** Selecting a profile *)

(** C4, as the code has it: every variant calls the profile-load with the
    payload and makes no other call; part_001 then publishes the payload
    unchanged, retained, on the state topic of the select when that call
    resolved, and publishes nothing when it rejected; main.ts and part_000
    publish nothing in either case. The handler completes normally. *)
Theorem select_profile_behaviour (v : Variant) (localIp msg : string)
    (env : Env) (w : World) :
  onMessage v localIp (commandTopic localIp "select_profile") msg env w
  = (Normal tt,
     {| vars := vars w;
        trace := trace w ++
          Call (ProfileLoad msg) ::
          match v, perform (we env) (calls (trace w)) (ProfileLoad msg) with
          | VPart001, None => [Publish (stateTopic localIp "select_profile") msg true]
          | _, _ => []
          end |}).
Proof.
  destruct v; topics; exec;
    destruct (perform (we env) (calls (trace w)) (ProfileLoad msg));
    cbn [vars trace]; try reflexivity.
  rewrite <- app_assoc. reflexivity.
Qed.

(** C4 fails as stated: in main.ts a select-profile command with every
    call resolving publishes nothing, so not the payload on the state
    topic either. *)
Lemma select_profile_main_publishes_nothing :
  ~ In (stateTopic "10.0.0.7" "select_profile", "Work", true)
       (publishes (trace (snd (onMessage VMainTs "10.0.0.7"
                                 (commandTopic "10.0.0.7" "select_profile") "Work"
                                 (envWith healthyApi) sunsetWorld)))).
Proof. vm_compute. tauto. Qed.

(** ** Selecting a wallpaper *)

Lemma split_bar_sunset :
  split "|" "Sunset (abc123)|all" = ["Sunset (abc123)"; "all"].
Proof. reflexivity. Qed.

Ltac peel t H :=
  destruct t as [|? t]; cbn in H;
  [ try discriminate H
  | first [ discriminate H | injection H as ? H; subst; peel t H ] ].

(** Only a title "Sunset" and an id "abc123" render as "Sunset (abc123)". *)
Lemma render_sunset (m : WallpaperEntry) :
  Part001.render m = "Sunset (abc123)" -> id m = "abc123" /\ title m = "Sunset".
Proof.
  destruct m as [i t]. unfold Part001.render. cbn [id title]. intros H.
  peel t H.
  split; [|reflexivity].
  injection H as H. now apply (append_cancel_r i "abc123" ")").
Qed.

Lemma find_some_of_In {A} (p : A -> bool) (l : list A) (x : A) :
  In x l -> p x = true -> exists y, find p l = Some y /\ p y = true.
Proof.
  induction l as [|a l IH]; simpl; [contradiction|].
  intros [->|Hin] Hp.
  - rewrite Hp. eauto.
  - destruct (p a) eqn:Ha; eauto.
Qed.

(** C7 (part_001, the variant with monitor selectors): with an entry of id
    "abc123" and title "Sunset" in the catalog, the command
    "Sunset (abc123)|all" makes exactly three load calls, one for each of
    the monitors 0, 1 and 2 and each with the id "abc123", and then
    publishes the payload as received, retained, on the state topic of the
    select; this is so whether the load calls resolve or reject. *)
Theorem select_all_loads_each_monitor (localIp : string) (env : Env) (w : World) :
  In sunset (wallpapers (vars w)) ->
  Part001.onMessage localIp (commandTopic localIp "select_wallpaper")
    "Sunset (abc123)|all" env w
  = (Normal tt,
     {| vars := vars w;
        trace := trace w ++
          [Call (Load "abc123" (Some 0%float));
           Call (Load "abc123" (Some 1%float));
           Call (Load "abc123" (Some 2%float));
           Publish (stateTopic localIp "select_wallpaper") "Sunset (abc123)|all" true] |}).
Proof.
  intros Hin.
  destruct (find_some_of_In (fun x => Part001.render x =? "Sunset (abc123)")
              (wallpapers (vars w)) sunset Hin eq_refl) as (m & Hfind & Hm).
  apply String.eqb_eq in Hm. apply render_sunset in Hm as [Hid _].
  topics. unfold Part001.selectWallpaper.
  rewrite split_bar_sunset. cbn [nth nth_error String.eqb Ascii.eqb Bool.eqb].
  exec. rewrite Hfind, Hid.
  unfold Part001.allMonitors. cbn [forOf]. exec.
  repeat match goal with
         | |- context [perform ?a ?h ?c] => destruct (perform a h c); cbn [vars trace]
         end;
    rewrite <- !app_assoc; reflexivity.
Qed.

Lemma select_all_loads_each_monitor_witness :
  calls (trace (snd (Part001.onMessage "10.0.0.7"
                       (commandTopic "10.0.0.7" "select_wallpaper")
                       "Sunset (abc123)|all" (envWith deadApi) sunsetWorld)))
  = [Load "abc123" (Some 0%float); Load "abc123" (Some 1%float);
     Load "abc123" (Some 2%float)].
Proof.
  rewrite (select_all_loads_each_monitor "10.0.0.7" (envWith deadApi) sunsetWorld).
  - reflexivity.
  - simpl. left. reflexivity.
Defined.

Lemma find_none_of_no_match {A} (p : A -> bool) (l : list A) :
  (forall x, In x l -> p x = false) -> find p l = None.
Proof.
  induction l as [|a l IH]; simpl; intros H; [reflexivity|].
  rewrite (H a) by now left. apply IH. intros x Hx. apply H. now right.
Qed.

Lemma added_app (w : World) (vs : Vars) (new : list Effect) :
  added w {| vars := vs; trace := trace w ++ new |} = new.
Proof.
  unfold added. cbn [trace].
  induction (trace w) as [|e l IH]; simpl; [reflexivity | exact IH].
Qed.

Lemma added_same (w : World) : added w w = [].
Proof. unfold added. apply skipn_all. Qed.

(** What [publishCurrentWallpaper] of part_000 does: one query; when it
    resolves, four retained publishes, the last of them the property
    mapping of the current wallpaper (or [{}]) on the last_set topic; when
    it rejects, nothing more. *)
Lemma publishCurrentWallpaper_run (localIp : string) (env : Env) (w : World) :
  Part000.publishCurrentWallpaper localIp env w
  = (Normal tt,
     match current (we env) (calls (trace w)) with
     | inl _ => {| vars := vars w; trace := trace w ++ [Call Current] |}
     | inr cw =>
         {| vars := {| wallpapers := wallpapers (vars w);
                       profiles := profiles (vars w);
                       currentWallpaper := Some (cw_id cw, cw_title cw, cw_properties cw);
                       state := state (vars w) |};
            trace := trace w ++
              [Call Current;
               Publish (makeTopic ["we"; nodeIdOf localIp; "current_wallpaper"; "state"])
                 (JSON_stringify (js env)
                    (JObj [("id", JStr (cw_id cw)); ("title", JStr (cw_title cw))])) true;
               Publish (makeTopic ["we"; nodeIdOf localIp; "current_wallpaper"; "attributes"])
                 (JSON_stringify (js env)
                    (JObj [("title", JStr (cw_title cw));
                           ("id", JStr (cw_id cw));
                           ("description", cw_description cw);
                           ("preview", cw_preview cw);
                           ("tags", cw_tags cw);
                           ("path", cw_path cw);
                           ("properties", cw_properties cw)])) true;
               Publish (stateTopic localIp "select_wallpaper") (cw_id cw) true;
               Publish (lastSetTopic localIp)
                 (JSON_stringify (js env) (Part000.propertiesOrEmpty cw)) true] |}
     end).
Proof.
  unfold Part000.publishCurrentWallpaper, stateTopic, lastSetTopic. exec.
  destruct (current (we env) (calls (trace w))); cbn [vars trace];
    rewrite <- ?app_assoc; reflexivity.
Qed.

(** C3, as the code has it. In part_001, when no catalog entry renders as
    the part of the payload before the first '|', no control call is made,
    and the payload is nevertheless published unchanged, retained, on the
    state topic of the select. main.ts does not look at the catalog: it
    calls load with the payload and publishes the payload when that call
    resolved. part_000 does not look at the catalog either: it calls load
    with the payload; when that call rejects it does nothing more; when it
    resolves it queries the current wallpaper and, only when that query
    resolves too, publishes the four current-wallpaper messages, where the
    state topic of the select receives the id the application reports and
    not the payload. *)
Theorem select_unresolved_behaviour :
  (forall localIp msg env w,
     (forall x, In x (wallpapers (vars w)) ->
                Part001.render x <> nth 0 (split "|" msg) EmptyString) ->
     Part001.onMessage localIp (commandTopic localIp "select_wallpaper") msg env w
     = (Normal tt,
        {| vars := vars w;
           trace := trace w ++
             [Publish (stateTopic localIp "select_wallpaper") msg true] |})) /\
  (forall localIp msg env w,
     MainTs.onMessage localIp (commandTopic localIp "select_wallpaper") msg env w
     = (Normal tt,
        {| vars := vars w;
           trace := trace w ++
             Call (Load msg None) ::
             match perform (we env) (calls (trace w)) (Load msg None) with
             | None => [Publish (stateTopic localIp "select_wallpaper") msg true]
             | Some _ => []
             end |})) /\
  (forall localIp msg env w,
     exists w',
       Part000.onMessage localIp (commandTopic localIp "select_wallpaper") msg env w
       = (Normal tt, w') /\
       wallpapers (vars w') = wallpapers (vars w) /\
       calls (added w w')
       = Load msg None ::
         match perform (we env) (calls (trace w)) (Load msg None) with
         | None => [Current]
         | Some _ => []
         end /\
       publishes (added w w')
       = match perform (we env) (calls (trace w)) (Load msg None),
               current (we env) (calls (trace w) ++ [Load msg None]) with
         | None, inr cw =>
             [(makeTopic ["we"; nodeIdOf localIp; "current_wallpaper"; "state"],
               JSON_stringify (js env)
                 (JObj [("id", JStr (cw_id cw)); ("title", JStr (cw_title cw))]), true);
              (makeTopic ["we"; nodeIdOf localIp; "current_wallpaper"; "attributes"],
               JSON_stringify (js env)
                 (JObj [("title", JStr (cw_title cw));
                        ("id", JStr (cw_id cw));
                        ("description", cw_description cw);
                        ("preview", cw_preview cw);
                        ("tags", cw_tags cw);
                        ("path", cw_path cw);
                        ("properties", cw_properties cw)]), true);
              (stateTopic localIp "select_wallpaper", cw_id cw, true);
              (lastSetTopic localIp,
               JSON_stringify (js env) (Part000.propertiesOrEmpty cw), true)]
         | _, _ => []
         end).
Proof.
  split; [|split].
  - intros localIp msg env w Hno.
    assert (Hfind : find (fun x => Part001.render x =? nth 0 (split "|" msg) EmptyString)
                         (wallpapers (vars w)) = None).
    { apply find_none_of_no_match. intros x Hx. apply String.eqb_neq. auto. }
    topics. unfold Part001.selectWallpaper. exec. rewrite Hfind.
    destruct (nth_error (split "|" msg) 1) as [m|]; [destruct (m =? "all")|];
      reflexivity.
  - intros localIp msg env w. topics. exec.
    destruct (perform (we env) (calls (trace w)) (Load msg None));
      cbn [vars trace]; [reflexivity|].
    rewrite <- app_assoc. reflexivity.
  - intros localIp msg env w. topics. exec.
    destruct (perform (we env) (calls (trace w)) (Load msg None)); cbn [vars trace].
    + eexists. split; [reflexivity|]. cbn [vars]. split; [reflexivity|].
      rewrite added_app. split; reflexivity.
    + rewrite publishCurrentWallpaper_run. cbn [vars trace].
      rewrite calls_app. cbn [calls].
      destruct (current (we env) (calls (trace w) ++ [Load msg None]));
        (eexists; split; [reflexivity|]); cbn [vars trace wallpapers];
        (split; [reflexivity|]);
        rewrite <- app_assoc, added_app; split; reflexivity.
Qed.

Lemma select_unresolved_behaviour_witness :
  Part001.onMessage "10.0.0.7" (commandTopic "10.0.0.7" "select_wallpaper")
    "Sunrise (zzz)|1" (envWith healthyApi) sunsetWorld
  = (Normal tt,
     {| vars := vars sunsetWorld;
        trace := [Publish (stateTopic "10.0.0.7" "select_wallpaper")
                          "Sunrise (zzz)|1" true] |}).
Proof.
  apply (proj1 select_unresolved_behaviour "10.0.0.7" "Sunrise (zzz)|1"
           (envWith healthyApi) sunsetWorld).
  simpl. intros x [<-|[]]. discriminate.
Defined.

(** C3 fails as stated: with an empty catalog nothing resolves, yet
    part_001 publishes the payload on the state topic of the select, and
    main.ts makes a load call. *)
Lemma select_unresolved_still_acts :
  wallpapers (vars startWorld) = [] /\
  publishes (trace (snd (Part001.onMessage "10.0.0.7"
                           (commandTopic "10.0.0.7" "select_wallpaper")
                           "Sunset (abc123)|all" (envWith healthyApi) startWorld)))
  = [(stateTopic "10.0.0.7" "select_wallpaper", "Sunset (abc123)|all", true)] /\
  calls (trace (snd (MainTs.onMessage "10.0.0.7"
                       (commandTopic "10.0.0.7" "select_wallpaper")
                       "abc123" (envWith healthyApi) startWorld)))
  = [Load "abc123" None].
Proof. vm_compute. repeat split. Qed.

(** ** Applying properties *)

(** The properties command in main.ts and part_001. *)
Lemma properties_run_echo (v : Variant) (localIp msg : string) (env : Env) (w : World) :
  v <> VPart000 ->
  onMessage v localIp (commandTopic localIp "properties") msg env w
  = (Normal tt,
     match JSON_parse (js env) msg with
     | None => w
     | Some props =>
         {| vars := vars w;
            trace := trace w ++
              Call (ApplyProperties props) ::
              match perform (we env) (calls (trace w)) (ApplyProperties props) with
              | None => [Publish (lastSetTopic localIp)
                                 (JSON_stringify (js env) props) true]
              | Some _ => []
              end |}
     end).
Proof.
  intros Hv. destruct w as [vs tr].
  destruct v; [|contradiction|]; topics; unfold lastSetTopic; exec;
    (destruct (JSON_parse (js env) msg) as [props|]; cbn [vars trace];
     [| reflexivity]);
    destruct (perform (we env) (calls tr) (ApplyProperties props));
    cbn [vars trace]; rewrite <- ?app_assoc; reflexivity.
Qed.

(** The properties command in part_000. *)
Lemma properties_run_part000 (localIp msg : string) (env : Env) (w : World) :
  Part000.onMessage localIp (commandTopic localIp "properties") msg env w
  = match JSON_parse (js env) msg with
    | None => (Normal tt, w)
    | Some props =>
        let w1 := {| vars := vars w;
                     trace := trace w ++ [Call (ApplyProperties props)] |} in
        match perform (we env) (calls (trace w)) (ApplyProperties props) with
        | None => Part000.publishCurrentWallpaper localIp env w1
        | Some _ => (Normal tt, w1)
        end
    end.
Proof.
  destruct w as [vs tr]. topics. exec.
  destruct (JSON_parse (js env) msg) as [props|]; cbn [vars trace]; [|reflexivity].
  destruct (perform (we env) (calls tr) (ApplyProperties props));
    cbn [vars trace]; [reflexivity|].
  rewrite !publishCurrentWallpaper_run. reflexivity.
Qed.

(** C8, as the code has it.
    (1) In every variant a payload that fails to parse leaves the world as
        it was: no control call, no publish.
    (2) In every variant a payload that parses leads to exactly one
        property-apply call, with the parsed value.
    (3) In main.ts and part_001 something is published on last_set exactly
        when the payload parsed and the apply call resolved, and then the
        one publish of the handling is the stringified parsed value,
        retained, on last_set.
    (4) So in main.ts and part_001, for a runtime that parses the text
        [{"fps":30}] to the object with fps 30 and prints that object as
        the same text, a resolved apply call gives exactly the apply call
        with that object and the retained publish of that text.
    (5) part_000 does not echo the payload: after a resolved apply call it
        queries the current wallpaper and, when that query resolves,
        publishes the current-wallpaper topics, last among them the property
        mapping of the current wallpaper (or [{}]) on last_set; when the
        query rejects it publishes nothing. *)
Theorem properties_behaviour :
  (forall v localIp msg env w,
     JSON_parse (js env) msg = None ->
     onMessage v localIp (commandTopic localIp "properties") msg env w
     = (Normal tt, w)) /\
  (forall v localIp msg env w props,
     JSON_parse (js env) msg = Some props ->
     filter isApply
       (calls (added w (snd (onMessage v localIp (commandTopic localIp "properties")
                               msg env w))))
     = [ApplyProperties props]) /\
  (forall v localIp msg env w,
     v <> VPart000 ->
     let new := added w (snd (onMessage v localIp (commandTopic localIp "properties")
                                msg env w)) in
     (publishesTo (lastSetTopic localIp) new <->
      exists props, JSON_parse (js env) msg = Some props /\
        perform (we env) (calls (trace w)) (ApplyProperties props) = None) /\
     (forall props, JSON_parse (js env) msg = Some props ->
        perform (we env) (calls (trace w)) (ApplyProperties props) = None ->
        publishes new
        = [(lastSetTopic localIp, JSON_stringify (js env) props, true)])) /\
  (forall v localIp env w,
     v <> VPart000 ->
     JSON_parse (js env) fpsText = Some fpsObject ->
     JSON_stringify (js env) fpsObject = fpsText ->
     perform (we env) (calls (trace w)) (ApplyProperties fpsObject) = None ->
     onMessage v localIp (commandTopic localIp "properties") fpsText env w
     = (Normal tt,
        {| vars := vars w;
           trace := trace w ++
             [Call (ApplyProperties fpsObject);
              Publish (lastSetTopic localIp) fpsText true] |})) /\
  (forall localIp msg env w props,
     JSON_parse (js env) msg = Some props ->
     perform (we env) (calls (trace w)) (ApplyProperties props) = None ->
     publishes (added w (snd (Part000.onMessage localIp
                                (commandTopic localIp "properties") msg env w)))
     = match current (we env) (calls (trace w) ++ [ApplyProperties props]) with
       | inl _ => []
       | inr cw =>
           [(makeTopic ["we"; nodeIdOf localIp; "current_wallpaper"; "state"],
             JSON_stringify (js env)
               (JObj [("id", JStr (cw_id cw)); ("title", JStr (cw_title cw))]), true);
            (makeTopic ["we"; nodeIdOf localIp; "current_wallpaper"; "attributes"],
             JSON_stringify (js env)
               (JObj [("title", JStr (cw_title cw));
                      ("id", JStr (cw_id cw));
                      ("description", cw_description cw);
                      ("preview", cw_preview cw);
                      ("tags", cw_tags cw);
                      ("path", cw_path cw);
                      ("properties", cw_properties cw)]), true);
            (stateTopic localIp "select_wallpaper", cw_id cw, true);
            (lastSetTopic localIp,
             JSON_stringify (js env) (Part000.propertiesOrEmpty cw), true)]
       end).
Proof.
  split; [|split; [|split; [|split]]].
  - intros v localIp msg env w Hparse.
    destruct v.
    + change (MainTs.onMessage localIp) with (onMessage VMainTs localIp).
      rewrite properties_run_echo by discriminate. now rewrite Hparse.
    + cbn [onMessage]. rewrite properties_run_part000. now rewrite Hparse.
    + change (Part001.onMessage localIp) with (onMessage VPart001 localIp).
      rewrite properties_run_echo by discriminate. now rewrite Hparse.
  - intros v localIp msg env w props Hparse.
    assert (Hecho : v <> VPart000 ->
      filter isApply
        (calls (added w (snd (onMessage v localIp (commandTopic localIp "properties")
                                msg env w))))
      = [ApplyProperties props]).
    { intros Hv. rewrite properties_run_echo by exact Hv. rewrite Hparse.
      cbn [snd]. rewrite added_app.
      destruct (perform (we env) (calls (trace w)) (ApplyProperties props));
        reflexivity. }
    destruct v; try (apply Hecho; discriminate).
    cbn [onMessage]. rewrite properties_run_part000, Hparse. cbn zeta.
    destruct (perform (we env) (calls (trace w)) (ApplyProperties props)).
    + cbn [snd]. rewrite added_app. reflexivity.
    + rewrite publishCurrentWallpaper_run. cbn [snd trace vars].
      destruct (current (we env) _); cbn [trace]; rewrite <- app_assoc, added_app;
        reflexivity.
  - intros v localIp msg env w Hv new. subst new.
    rewrite properties_run_echo by exact Hv. cbn [snd].
    destruct (JSON_parse (js env) msg) as [props|].
    + rewrite added_app.
      destruct (perform (we env) (calls (trace w)) (ApplyProperties props)) eqn:Hp.
      * split.
        -- split.
           ++ intros (p & r & [H|[]]). discriminate H.
           ++ intros (props' & Heq & Hnone). injection Heq as <-. congruence.
        -- intros props' Heq Hnone. injection Heq as <-. congruence.
      * split.
        -- split.
           ++ intros _. exists props. split; [reflexivity | exact Hp].
           ++ intros _. exists (JSON_stringify (js env) props), true.
              right. left. reflexivity.
        -- intros props' Heq _. injection Heq as <-. reflexivity.
    + rewrite added_same. split.
      * split.
        -- intros (p & r & []).
        -- intros (props & Heq & _). discriminate Heq.
      * intros props Heq. discriminate Heq.
  - intros v localIp env w Hv Hparse Hprint Hres.
    rewrite properties_run_echo by exact Hv.
    now rewrite Hparse, Hres, Hprint.
  - intros localIp msg env w props Hparse Hres.
    rewrite properties_run_part000, Hparse. cbn zeta. rewrite Hres.
    rewrite publishCurrentWallpaper_run. cbn [snd trace vars].
    rewrite calls_app. cbn [calls].
    destruct (current (we env) _); cbn [trace]; rewrite <- app_assoc, added_app;
      reflexivity.
Qed.

Lemma properties_behaviour_witness :
  onMessage VMainTs "10.0.0.7" (commandTopic "10.0.0.7" "properties") fpsText
    (envWith healthyApi) startWorld
  = (Normal tt,
     {| vars := initialVars;
        trace := [Call (ApplyProperties fpsObject);
                  Publish (lastSetTopic "10.0.0.7") fpsText true] |}).
Proof.
  destruct properties_behaviour as (_ & _ & _ & H & _).
  apply (H VMainTs "10.0.0.7" (envWith healthyApi) startWorld).
  - discriminate.
  - reflexivity.
  - reflexivity.
  - reflexivity.
Defined.

(** C8 fails as stated: in part_000 the text [{"fps":30}] parses and the
    apply call resolves, yet when the query for the current wallpaper
    rejects nothing is published, so not that text on last_set either. *)
Lemma properties_part000_no_echo :
  JSON_parse (js (envWith noCurrentApi)) fpsText = Some fpsObject /\
  perform (we (envWith noCurrentApi)) [] (ApplyProperties fpsObject) = None /\
  publishes (trace (snd (Part000.onMessage "10.0.0.7"
                           (commandTopic "10.0.0.7" "properties") fpsText
                           (envWith noCurrentApi) startWorld)))
  = [].
Proof. vm_compute. repeat split. Qed.

(** ** The refresh loop *)

(** C1, as the code has it. The whole pass is one try block: when the
    wallpaper-catalog query rejects, the error is caught there, the pass
    ends normally with every shared variable as it was, and no profile
    query, re-registration, current-wallpaper publish or catalog publish
    is attempted. The one step with a guard of its own is the
    current-wallpaper publish of part_000: when only that query rejects,
    the two re-registrations before it and the two raw catalog publishes
    after it are still made. *)
Theorem refresh_catalog_failure_ends_pass :
  (forall v localIp env w e,
     listWallpapers (we env) (calls (trace w)) = inl e ->
     refresh v localIp env w
     = (Normal tt, {| vars := vars w; trace := trace w ++ [Call ListWallpapers] |})) /\
  (forall localIp env w wp ps e,
     listWallpapers (we env) (calls (trace w)) = inr wp ->
     listProfiles (we env) (calls (trace w) ++ [ListWallpapers]) = inr ps ->
     current (we env) (calls (trace w) ++ [ListWallpapers; ListProfiles]) = inl e ->
     exists w',
       Part000.refreshWallpapersProfilesAndCurrent localIp env w = (Normal tt, w') /\
       wallpapers (vars w') = toEntries wp /\
       profiles (vars w') = orEmpty ps /\
       calls (added w w') = [ListWallpapers; ListProfiles; Current] /\
       publishes (added w w')
       = [(haDiscoveryTopic "select" (nodeIdOf localIp) "select_wallpaper",
           JSON_stringify (js env)
             (selectPayload (nodeIdOf localIp) "Wallpaper" "select_wallpaper"
                (map id (toEntries wp)) (haDevice_part000 localIp)), true);
          (haDiscoveryTopic "select" (nodeIdOf localIp) "select_profile",
           JSON_stringify (js env)
             (selectPayload (nodeIdOf localIp) "Profile" "select_profile"
                (orEmpty ps) (haDevice_part000 localIp)), true);
          (makeTopic ["we"; nodeIdOf localIp; "wallpapers"; "list"],
           JSON_stringify (js env) (wallpapersJson (toEntries wp)), true);
          (makeTopic ["we"; nodeIdOf localIp; "profiles"; "list"],
           JSON_stringify (js env) (stringsJson (orEmpty ps)), true)]).
Proof.
  split.
  - intros v localIp env w e H.
    destruct v; unfold refresh, MainTs.refreshWallpapersProfiles,
      Part000.refreshWallpapersProfilesAndCurrent,
      Part001.refreshWallpapersProfiles; exec; rewrite H; reflexivity.
  - intros localIp env w wp ps e Hwp Hps Hcw.
    unfold Part000.refreshWallpapersProfilesAndCurrent. exec.
    rewrite Hwp. cbn [vars trace]. rewrite calls_app. cbn [calls].
    rewrite Hps. cbn [vars trace].
    rewrite publishCurrentWallpaper_run. cbn [vars trace].
    rewrite !calls_app. cbn [calls]. rewrite ?app_nil_r, <- ?app_assoc. cbn [app].
    rewrite Hcw. cbn [vars trace wallpapers profiles].
    eexists. split; [reflexivity|]. cbn [vars trace wallpapers profiles].
    rewrite <- !app_assoc. rewrite added_app. cbn.
    repeat split.
Qed.

Lemma refresh_catalog_failure_ends_pass_witness :
  refresh VPart001 "10.0.0.7" (envWith noCatalogApi) sunsetWorld
  = (Normal tt, {| vars := vars sunsetWorld; trace := [Call ListWallpapers] |}).
Proof.
  exact (proj1 refresh_catalog_failure_ends_pass VPart001 "10.0.0.7"
           (envWith noCatalogApi) sunsetWorld (Error "listWallpapers failed") eq_refl).
Defined.

(** C1 fails as stated: when the wallpaper-catalog query rejects (and
    every other call would resolve), none of the variants goes on to query
    the profile catalog, and none publishes anything in that pass. *)
Lemma refresh_stops_after_catalog_failure :
  (~ In (Call ListProfiles)
        (trace (snd (refresh VMainTs "10.0.0.7" (envWith noCatalogApi) startWorld))) /\
   publishes (trace (snd (refresh VMainTs "10.0.0.7" (envWith noCatalogApi) startWorld)))
   = []) /\
  (~ In (Call ListProfiles)
        (trace (snd (refresh VPart000 "10.0.0.7" (envWith noCatalogApi) startWorld))) /\
   ~ In (Call Current)
        (trace (snd (refresh VPart000 "10.0.0.7" (envWith noCatalogApi) startWorld))) /\
   publishes (trace (snd (refresh VPart000 "10.0.0.7" (envWith noCatalogApi) startWorld)))
   = []) /\
  (~ In (Call ListProfiles)
        (trace (snd (refresh VPart001 "10.0.0.7" (envWith noCatalogApi) startWorld))) /\
   publishes (trace (snd (refresh VPart001 "10.0.0.7" (envWith noCatalogApi) startWorld)))
   = []).
Proof.
  vm_compute.
  repeat split; try (intros [H|[]]; discriminate H).
Qed.

(** ** Retained publishes *)

Section Appends.

Variable P : Effect -> Prop.

Lemma appends_ret {A} (a : A) : appends P (ret a).
Proof. intros env w. exists []. split; [symmetry; apply app_nil_r | constructor]. Qed.

Lemma appends_throw {A} (e : JsError) : appends P (@throw A e).
Proof. intros env w. exists []. split; [symmetry; apply app_nil_r | constructor]. Qed.

Lemma appends_getVars : appends P getVars.
Proof. intros env w. exists []. split; [symmetry; apply app_nil_r | constructor]. Qed.

Lemma appends_getEnv : appends P getEnv.
Proof. intros env w. exists []. split; [symmetry; apply app_nil_r | constructor]. Qed.

Lemma appends_setVars (f : Vars -> Vars) : appends P (setVars f).
Proof. intros env w. exists []. split; [symmetry; apply app_nil_r | constructor]. Qed.

Lemma appends_emit (e : Effect) : P e -> appends P (emit e).
Proof. intros He env w. exists [e]. split; [reflexivity | repeat constructor; exact He]. Qed.

Lemma appends_await (c : ApiCall) : P (Call c) -> appends P (await c).
Proof.
  intros Hc env w. exists [Call c]. unfold await.
  destruct (perform (we env) (calls (trace w)) c);
    (split; [reflexivity | repeat constructor; exact Hc]).
Qed.

Lemma appends_awaitQuery {A} (c : ApiCall)
    (answer : WallpaperEngineApi -> list ApiCall -> JsError + A) :
  P (Call c) -> appends P (awaitQuery c answer).
Proof.
  intros Hc env w. exists [Call c]. unfold awaitQuery.
  destruct (answer (we env) (calls (trace w)));
    (split; [reflexivity | repeat constructor; exact Hc]).
Qed.

Lemma appends_bind {A B} (c : M A) (k : A -> M B) :
  appends P c -> (forall a, appends P (k a)) -> appends P (bind c k).
Proof.
  intros Hc Hk env w. unfold bind.
  destruct (Hc env w) as (n1 & H1 & F1).
  destruct (c env w) as [[a|e] w1]; cbn [snd] in *.
  - destruct (Hk a env w1) as (n2 & H2 & F2).
    exists (n1 ++ n2)%list. split.
    + rewrite H2, H1. symmetry. apply app_assoc.
    + apply Forall_app. split; assumption.
  - exists n1. split; assumption.
Qed.

Lemma appends_tryCatch {A} (c : M A) (h : JsError -> M A) :
  appends P c -> (forall e, appends P (h e)) -> appends P (tryCatch c h).
Proof.
  intros Hc Hh env w. unfold tryCatch.
  destruct (Hc env w) as (n1 & H1 & F1).
  destruct (c env w) as [[a|e] w1]; cbn [snd] in *.
  - exists n1. split; assumption.
  - destruct (Hh e env w1) as (n2 & H2 & F2).
    exists (n1 ++ n2)%list. split.
    + rewrite H2, H1. symmetry. apply app_assoc.
    + apply Forall_app. split; assumption.
Qed.

Lemma appends_forOf {A} (l : list A) (body : A -> M unit) :
  (forall x, appends P (body x)) -> appends P (forOf l body).
Proof.
  intros Hb. induction l as [|x l IH]; cbn [forOf].
  - apply appends_ret.
  - apply appends_bind; [apply Hb | intros _; exact IH].
Qed.

End Appends.

(** Steps through a handler, leaving the side conditions on its effects. *)
Ltac appends_step :=
  lazymatch goal with
  | |- appends _ (ret _) => apply appends_ret
  | |- appends _ (throw _) => apply appends_throw
  | |- appends _ getVars => apply appends_getVars
  | |- appends _ getEnv => apply appends_getEnv
  | |- appends _ (setVars _) => apply appends_setVars
  | |- appends _ (emit _) => apply appends_emit
  | |- appends _ (await _) => apply appends_await
  | |- appends _ (awaitQuery _ _) => apply appends_awaitQuery
  | |- appends _ (bind _ _) => apply appends_bind; [|intros ?]
  | |- appends _ (tryCatch _ _) => apply appends_tryCatch; [|intros ?]
  | |- appends _ (forOf _ _) => apply appends_forOf; intros ?
  | |- appends _ (if ?b then _ else _) => destruct b
  | |- appends _ (match ?x with _ => _ end) => destruct x
  end.

Ltac appends_auto :=
  cbv zeta;
  unfold publishJson, publish, stringify, parseJson, setState, setWallpapers,
    setProfiles, setCurrentWallpaper;
  repeat appends_step.

Ltac retained :=
  solve [ exact I
        | left; reflexivity
        | right; split; [reflexivity | left; reflexivity]
        | right; split; [reflexivity | right; reflexivity] ].

Lemma handle_appends (v : Variant) (localIp : string) (ev : Event) :
  appends (retainedOrPressed localIp) (handle v localIp ev).
Proof.
  destruct v, ev; cbn [handle MainTs.handle Part000.handle Part001.handle].
  all: unfold MainTs.onConnect, MainTs.onMessage, MainTs.onTick, MainTs.onSigint,
    MainTs.initialSyncAndDiscovery, MainTs.subscribeCommandTopics,
    MainTs.refreshWallpapersProfiles,
    Part000.onConnect, Part000.onMessage, Part000.onTick, Part000.onSigint,
    Part000.initialSyncAndDiscovery, Part000.subscribeCommandTopics,
    Part000.refreshWallpapersProfilesAndCurrent, Part000.publishCurrentWallpaper,
    Part001.onConnect, Part001.onMessage, Part001.onTick, Part001.onSigint,
    Part001.initialSyncAndDiscovery, Part001.subscribeCommandTopics,
    Part001.refreshWallpapersProfiles, Part001.selectWallpaper.
  all: appends_auto.
  all: retained.
Qed.

(** C5, as the code has it: whatever event a variant handles, it only adds
    to the trace, and every publish it adds is retained, with one exception:
    the "pressed" acknowledgement on the state topic of the play or stop
    button. That acknowledgement is published not retained. *)
Theorem publishes_retained_except_pressed :
  (forall v localIp ev env w,
     exists new,
       trace (snd (handle v localIp ev env w)) = (trace w ++ new)%list /\
       forall topic payload retain,
         In (Publish topic payload retain) new ->
         retain = true \/ (payload = "pressed" /\ isButtonState localIp topic)) /\
  (forall v localIp button msg env w,
     button = "button_play" \/ button = "button_stop" ->
     perform (we env) (calls (trace w))
             (if button =? "button_play" then Play else Stop) = None ->
     publishes (added w (snd (onMessage v localIp (commandTopic localIp button) msg env w)))
     = [(stateTopic localIp button, "pressed", false)]).
Proof.
  split.
  - intros v localIp ev env w.
    destruct (handle_appends v localIp ev env w) as (new & Htr & Hall).
    exists new. split; [exact Htr|].
    intros topic payload retain Hin.
    rewrite Forall_forall in Hall. exact (Hall _ Hin).
  - intros v localIp button msg env w [-> | ->] Hres; cbn [String.eqb Ascii.eqb Bool.eqb] in Hres.
    + destruct v; topics; exec; rewrite Hres; cbn [vars trace snd];
        rewrite <- app_assoc, added_app; reflexivity.
    + destruct v; topics; exec; rewrite Hres; cbn [vars trace snd];
        rewrite <- app_assoc, added_app; reflexivity.
Qed.

Lemma publishes_retained_except_pressed_witness :
  publishes (added startWorld
               (snd (onMessage VPart000 "10.0.0.7"
                       (commandTopic "10.0.0.7" "button_stop") ""
                       (envWith healthyApi) startWorld)))
  = [(stateTopic "10.0.0.7" "button_stop", "pressed", false)].
Proof.
  apply (proj2 publishes_retained_except_pressed VPart000 "10.0.0.7" "button_stop" ""
           (envWith healthyApi) startWorld).
  - right. reflexivity.
  - reflexivity.
Defined.

(** C5 fails as stated: the state topic of the play button receives a
    publish that is not retained. *)
Lemma button_state_not_retained :
  In (stateTopic "10.0.0.7" "button_play", "pressed", false)
     (publishes (trace (snd (onMessage VMainTs "10.0.0.7"
                               (commandTopic "10.0.0.7" "button_play") "1"
                               (envWith healthyApi) startWorld)))).
Proof. vm_compute. left. reflexivity. Qed.

(** ** Sample runs *)

(** The resolver prefers the address with the home prefix, then the first
    external IPv4 address, then the loopback address. *)
Example getLocalIPv4_prefers_prefix : getLocalIPv4 homeLan = "192.168.178.42".
Proof. reflexivity. Qed.

Example getLocalIPv4_first_external :
  getLocalIPv4 (firstn 2 homeLan) = "10.0.0.7".
Proof. reflexivity. Qed.

Example getLocalIPv4_loopback :
  getLocalIPv4 (firstn 1 homeLan) = "127.0.0.1" /\ getLocalIPv4 [] = "127.0.0.1".
Proof. split; reflexivity. Qed.

Example split_examples :
  split "|" "a|b|c" = ["a"; "b"; "c"] /\
  split "|" "abc" = ["abc"] /\
  split "|" "" = [""] /\
  split "|" "a|" = ["a"; ""].
Proof. repeat split. Qed.

(** A first connect of main.ts against a healthy application: the online
    message, eight registrations, nine subscriptions, then one refresh pass
    and the timer. *)
Example main_connect_shape :
  let tr := trace (snd (MainTs.onConnect "192.168.178.42" (envWith healthyApi) startWorld)) in
  length (publishes tr) = 13 /\
  calls tr = [ListWallpapers; ListProfiles] /\
  last tr ClientEnd = SetInterval REFRESH_INTERVAL.
Proof. vm_compute. repeat split. Qed.

(** A numeric monitor selector of part_001 loads on the parsed monitor
    only, and the payload is published afterwards. *)
Example part001_select_one_monitor :
  trace (snd (Part001.onMessage "10.0.0.7" (commandTopic "10.0.0.7" "select_wallpaper")
                "Sunset (abc123)|1" (envWith healthyApi) sunsetWorld))
  = [Call (Load "abc123" (Some 1%float));
     Publish (stateTopic "10.0.0.7" "select_wallpaper") "Sunset (abc123)|1" true].
Proof. reflexivity. Qed.

(** * Further properties of the code *)

(** ** The identity resolver as a search *)

Lemma scanAddrs_find (p : NetworkInterfaceInfo -> bool) (l : list NetworkInterfaceInfo) :
  scanAddrs p l = option_map address (find p l).
Proof.
  induction l as [|a l IH]; simpl; [reflexivity|].
  destruct (p a); [reflexivity | exact IH].
Qed.

Lemma find_app {A} (p : A -> bool) (l1 l2 : list A) :
  find p (l1 ++ l2) = match find p l1 with Some x => Some x | None => find p l2 end.
Proof.
  induction l1 as [|a l1 IH]; simpl; [reflexivity|].
  destruct (p a); [reflexivity | exact IH].
Qed.

Lemma scanIfaces_find (p : NetworkInterfaceInfo -> bool) (ifaces : NetworkInterfaces) :
  scanIfaces p ifaces = option_map address (find p (allAddrs ifaces)).
Proof.
  induction ifaces as [|[name addrs] rest IH]; simpl; [reflexivity|].
  rewrite find_app, scanAddrs_find.
  destruct (find p (orEmpty addrs)); [reflexivity | exact IH].
Qed.

Lemma getLocalIPv4_prefer_find (preferPrefix : string) (ifaces : NetworkInterfaces) :
  getLocalIPv4_prefer preferPrefix ifaces
  = match find (fun a => externalIPv4 a && startsWith (address a) preferPrefix)
               (allAddrs ifaces) with
    | Some a => address a
    | None =>
        match find externalIPv4 (allAddrs ifaces) with
        | Some a => address a
        | None => "127.0.0.1"
        end
    end.
Proof.
  unfold getLocalIPv4_prefer. rewrite !scanIfaces_find.
  destruct (find _ (allAddrs ifaces)); [reflexivity|].
  destruct (find externalIPv4 (allAddrs ifaces)); reflexivity.
Qed.

(** X1: the two pairs of nested loops of [getLocalIPv4] are two searches
    through the addresses in enumeration order: the result is the first
    external IPv4 address that starts with "192.168.178" if there is one,
    else the first external IPv4 address, else the loopback address. *)
Theorem getLocalIPv4_as_search (ifaces : NetworkInterfaces) :
  getLocalIPv4 ifaces
  = match find (fun a => (family a =? "IPv4") && negb (internal a)
                         && String.prefix "192.168.178" (address a))
               (allAddrs ifaces) with
    | Some a => address a
    | None =>
        match find (fun a => (family a =? "IPv4") && negb (internal a))
                   (allAddrs ifaces) with
        | Some a => address a
        | None => "127.0.0.1"
        end
    end.
Proof. unfold getLocalIPv4. apply getLocalIPv4_prefer_find. Qed.

(** X2: an external IPv4 address with the preferred prefix wins over any
    external address without it, wherever it stands in the enumeration:
    when one exists, the result is an external IPv4 address of the
    enumeration that starts with the prefix. *)
Theorem getLocalIPv4_prefix_wins (preferPrefix : string) (ifaces : NetworkInterfaces)
    (a : NetworkInterfaceInfo) :
  In a (allAddrs ifaces) ->
  externalIPv4 a = true ->
  startsWith (address a) preferPrefix = true ->
  startsWith (getLocalIPv4_prefer preferPrefix ifaces) preferPrefix = true /\
  exists b, In b (allAddrs ifaces) /\ externalIPv4 b = true /\
            address b = getLocalIPv4_prefer preferPrefix ifaces.
Proof.
  intros Hin Hext Hpre. rewrite getLocalIPv4_prefer_find.
  destruct (find_some_of_In
              (fun x => externalIPv4 x && startsWith (address x) preferPrefix)
              (allAddrs ifaces) a Hin) as (b & Hb & Hpb).
  { now rewrite Hext, Hpre. }
  rewrite Hb. apply andb_true_iff in Hpb as [Hbe Hbp].
  split; [exact Hbp|]. exists b. split; [|split; [exact Hbe | reflexivity]].
  apply find_some in Hb. exact (proj1 Hb).
Qed.

Lemma getLocalIPv4_prefix_wins_witness :
  startsWith (getLocalIPv4 homeLan) "192.168.178" = true /\
  exists b, In b (allAddrs homeLan) /\ externalIPv4 b = true /\
            address b = getLocalIPv4 homeLan.
Proof.
  apply (getLocalIPv4_prefix_wins "192.168.178" homeLan
           {| family := "IPv4"; internal := false; address := "192.168.178.42" |}).
  - simpl. tauto.
  - reflexivity.
  - reflexivity.
Defined.

(** X3: the resolver never returns an internal or a non-IPv4 address of the
    enumeration as such: its result is the loopback literal or the address
    of an external IPv4 entry; and it is the loopback literal whenever the
    enumeration has no external IPv4 entry (also when it is empty or an
    interface has no address array). *)
Theorem getLocalIPv4_result (preferPrefix : string) (ifaces : NetworkInterfaces) :
  (getLocalIPv4_prefer preferPrefix ifaces = "127.0.0.1" \/
   exists a, In a (allAddrs ifaces) /\ family a = "IPv4" /\ internal a = false /\
             address a = getLocalIPv4_prefer preferPrefix ifaces) /\
  ((forall a, In a (allAddrs ifaces) -> externalIPv4 a = false) ->
   getLocalIPv4_prefer preferPrefix ifaces = "127.0.0.1").
Proof.
  rewrite getLocalIPv4_prefer_find. split.
  - destruct (find _ (allAddrs ifaces)) as [a|] eqn:H1.
    + right. apply find_some in H1 as [Hin Hp].
      apply andb_true_iff in Hp as [Hext _]. unfold externalIPv4 in Hext.
      apply andb_true_iff in Hext as [Hf Hi].
      exists a. repeat split; [exact Hin | now apply String.eqb_eq |
                               now apply negb_true_iff in Hi].
    + destruct (find externalIPv4 (allAddrs ifaces)) as [a|] eqn:H2; [|now left].
      right. apply find_some in H2 as [Hin Hext]. unfold externalIPv4 in Hext.
      apply andb_true_iff in Hext as [Hf Hi].
      exists a. repeat split; [exact Hin | now apply String.eqb_eq |
                               now apply negb_true_iff in Hi].
  - intros Hnone.
    rewrite (find_none_of_no_match _ (allAddrs ifaces)).
    + now rewrite (find_none_of_no_match _ (allAddrs ifaces) Hnone).
    + intros a Ha. now rewrite (Hnone a Ha).
Qed.

Lemma getLocalIPv4_result_witness :
  getLocalIPv4 [("lo", Some [ {| family := "IPv4"; internal := true;
                                 address := "127.0.0.1" |} ]);
                ("tun0", None)] = "127.0.0.1".
Proof.
  apply (proj2 (getLocalIPv4_result "192.168.178" _)).
  simpl. intros a [<-|[]]. reflexivity.
Defined.

(** ** Node identifiers and topics *)

Lemma replaceAll_injective (c d : ascii) (a b : string) :
  occurs d a = false -> occurs d b = false ->
  replaceAll c d a = replaceAll c d b -> a = b.
Proof.
  revert b. induction a as [|x a IH]; intros [|y b] Ha Hb H; simpl in *;
    try discriminate; [reflexivity|].
  apply orb_false_iff in Ha as [Hx Ha]. apply orb_false_iff in Hb as [Hy Hb].
  injection H as Hxy H. f_equal; [|now apply IH].
  destruct (Ascii.eqb_spec x c) as [->|Hxc], (Ascii.eqb_spec y c) as [->|Hyc].
  - reflexivity.
  - subst d. now rewrite Ascii.eqb_refl in Hy.
  - subst d. now rewrite Ascii.eqb_refl in Hx.
  - exact Hxy.
Qed.

(** X4: two addresses without an underscore (as every IPv4 address is)
    get the same node identifier only when they are the same address, so
    the topics and unique ids of two hosts do not collide. *)
Theorem nodeIdOf_injective (ip1 ip2 : string) :
  occurs "_" ip1 = false -> occurs "_" ip2 = false ->
  (nodeIdOf ip1 = nodeIdOf ip2 <-> ip1 = ip2).
Proof.
  intros H1 H2. split; [|now intros ->].
  intros H. unfold nodeIdOf in H.
  apply append_cancel_l in H.
  exact (replaceAll_injective "." "_" ip1 ip2 H1 H2 H).
Qed.

Lemma nodeIdOf_injective_witness :
  nodeIdOf "10.0.0.7" <> nodeIdOf "10.0.0.8".
Proof.
  intros H.
  apply (nodeIdOf_injective "10.0.0.7" "10.0.0.8" eq_refl eq_refl) in H.
  discriminate H.
Defined.

Lemma split_no_sep (sep : ascii) (s : string) :
  occurs sep s = false -> split sep s = [s].
Proof.
  induction s as [|c s IH]; simpl; [reflexivity|].
  intros H. apply orb_false_iff in H as [Hc Hs].
  rewrite Hc, (IH Hs). reflexivity.
Qed.

Lemma split_nonempty (sep : ascii) (s : string) : split sep s <> [].
Proof.
  induction s as [|c s IH]; simpl; [discriminate|].
  destruct (Ascii.eqb c sep); [discriminate|].
  destruct (split sep s); [contradiction | discriminate].
Qed.

Lemma split_append (sep : ascii) (a b : string) :
  occurs sep a = false ->
  split sep (a ++ String sep b) = a :: split sep b.
Proof.
  induction a as [|c a IH]; simpl; intros H.
  - now rewrite Ascii.eqb_refl.
  - apply orb_false_iff in H as [Hc Ha]. rewrite Hc, (IH Ha). reflexivity.
Qed.

(** X5: splitting at '/' undoes [makeTopic]: a non-empty sequence of
    segments none of which contains '/' is recovered from its topic. (The
    empty sequence is not: its topic is the empty string, which splits
    into one empty segment.) *)
Theorem split_makeTopic (parts : list string) :
  parts <> [] ->
  Forall (fun p => occurs "/" p = false) parts ->
  split "/" (makeTopic parts) = parts.
Proof.
  unfold makeTopic, join.
  induction parts as [|p rest IH]; intros Hne Hall; [contradiction|].
  inversion Hall as [|? ? Hp Hrest]; subst.
  destruct rest as [|q rest'].
  - cbn [String.concat]. now apply split_no_sep.
  - change (String.concat "/" (p :: q :: rest'))
      with (p ++ String "/" (String.concat "/" (q :: rest'))).
    rewrite split_append by exact Hp.
    f_equal. apply IH; [discriminate | exact Hrest].
Qed.

Lemma split_makeTopic_witness :
  split "/" (makeTopic ["we"; "wallpaper_engine_10_0_0_7"; "muted"; "set"])
  = ["we"; "wallpaper_engine_10_0_0_7"; "muted"; "set"] /\
  split "/" (makeTopic []) = [""].
Proof.
  split; [|reflexivity].
  apply split_makeTopic; [discriminate | repeat constructor].
Defined.

(** ** Topics the handler does not know *)

Ltac skip_topic H :=
  match goal with
  | |- context [?topic =? makeTopic ["we"; ?n; ?e; "set"]] =>
      destruct (String.eqb_spec topic (makeTopic ["we"; n; e; "set"])) as [Heq|_];
      [ exfalso; apply (H e); [cbn; tauto | exact Heq] | ]
  end.

(** X6: a message on a topic that is none of the nine command topics of
    the node changes nothing: no control call, no publish, no change of a
    shared variable, in every variant and for every payload. The state
    topic of show_icons, to which part_000 also subscribes and on which it
    publishes itself, is such a topic, so its own publishes do not make it
    act again. *)
Theorem unknown_topic_ignored :
  (forall v localIp topic msg env w,
     (forall e, In e commandEntities -> topic <> commandTopic localIp e) ->
     onMessage v localIp topic msg env w = (Normal tt, w)) /\
  (forall localIp msg env w,
     Part000.onMessage localIp (stateTopic localIp "show_icons") msg env w
     = (Normal tt, w)).
Proof.
  assert (Hgen : forall v localIp topic msg env w,
     (forall e, In e commandEntities -> topic <> commandTopic localIp e) ->
     onMessage v localIp topic msg env w = (Normal tt, w)).
  { intros v localIp topic msg env w H. unfold commandTopic in H.
    destruct w as [vs tr].
    destruct v; unfold onMessage, MainTs.onMessage, Part000.onMessage,
      Part001.onMessage, MainTs.nodeId, Part000.nodeId, Part001.nodeId;
      do 9 skip_topic H; reflexivity. }
  split; [exact Hgen|].
  intros localIp msg env w.
  apply (Hgen VPart000).
  intros e He Heq. unfold stateTopic, commandTopic, makeTopic, join in Heq.
  cbn [String.concat] in Heq.
  apply (append_cancel_l "we") in Heq. apply (append_cancel_l "/") in Heq.
  apply append_cancel_l in Heq. apply (append_cancel_l "/") in Heq.
  cbn in He.
  repeat (destruct He as [<-|He]; [discriminate Heq|]). contradiction.
Qed.

Lemma unknown_topic_ignored_witness :
  onMessage VMainTs "10.0.0.7" "we/wallpaper_engine_10_0_0_7/volume/set" "50"
    (envWith healthyApi) sunsetWorld
  = (Normal tt, sunsetWorld).
Proof.
  apply (proj1 unknown_topic_ignored).
  intros e He. cbn in He.
  repeat (destruct He as [<-|He]; [discriminate|]). contradiction.
Defined.

(** ** Handlers complete normally *)

Lemma neverThrows_ret {A} (a : A) : neverThrows (ret a).
Proof. intros env w. now exists a, w. Qed.

Lemma neverThrows_getVars : neverThrows getVars.
Proof. intros env w. now exists (vars w), w. Qed.

Lemma neverThrows_getEnv : neverThrows getEnv.
Proof. intros env w. now exists env, w. Qed.

Lemma neverThrows_setVars (f : Vars -> Vars) : neverThrows (setVars f).
Proof. intros env w. eexists _, _. reflexivity. Qed.

Lemma neverThrows_emit (e : Effect) : neverThrows (emit e).
Proof. intros env w. eexists _, _. reflexivity. Qed.

Lemma neverThrows_bind {A B} (c : M A) (k : A -> M B) :
  neverThrows c -> (forall a, neverThrows (k a)) -> neverThrows (bind c k).
Proof.
  intros Hc Hk env w. unfold bind.
  destruct (Hc env w) as (a & w1 & ->). apply Hk.
Qed.

Lemma neverThrows_tryCatch {A} (c : M A) (h : JsError -> M A) :
  (forall e, neverThrows (h e)) -> neverThrows (tryCatch c h).
Proof.
  intros Hh env w. unfold tryCatch.
  destruct (c env w) as [[a|e] w1]; [now exists a, w1 | apply Hh].
Qed.

Lemma neverThrows_forOf {A} (l : list A) (body : A -> M unit) :
  (forall x, neverThrows (body x)) -> neverThrows (forOf l body).
Proof.
  intros Hb. induction l as [|x l IH]; cbn [forOf].
  - apply neverThrows_ret.
  - apply neverThrows_bind; [apply Hb | intros _; exact IH].
Qed.

Ltac neverThrows_step :=
  lazymatch goal with
  | |- neverThrows (ret _) => apply neverThrows_ret
  | |- neverThrows getVars => apply neverThrows_getVars
  | |- neverThrows getEnv => apply neverThrows_getEnv
  | |- neverThrows (setVars _) => apply neverThrows_setVars
  | |- neverThrows (emit _) => apply neverThrows_emit
  | |- neverThrows (tryCatch _ _) => apply neverThrows_tryCatch; intros ?
  | |- neverThrows (bind _ _) => apply neverThrows_bind; [|intros ?]
  | |- neverThrows (forOf _ _) => apply neverThrows_forOf; intros ?
  end.

Lemma refresh_neverThrows (v : Variant) (localIp : string) :
  neverThrows (refresh v localIp).
Proof.
  destruct v; unfold refresh, MainTs.refreshWallpapersProfiles,
    Part000.refreshWallpapersProfilesAndCurrent, Part001.refreshWallpapersProfiles;
    neverThrows_step; neverThrows_step.
Qed.

(** X7: no handler run lets an error escape. Whatever the event (connect,
    message on any topic with any payload, timer tick, interrupt, broker
    error), whatever the application answers and whatever the runtime's
    JSON functions do, the handler of each variant completes normally. *)
Theorem handle_never_throws (v : Variant) (localIp : string) (ev : Event)
    (env : Env) (w : World) :
  exists w', handle v localIp ev env w = (Normal tt, w').
Proof.
  assert (H : neverThrows (handle v localIp ev)).
  { destruct v, ev; cbn [handle MainTs.handle Part000.handle Part001.handle];
      unfold MainTs.onConnect, MainTs.onMessage, MainTs.onTick, MainTs.onSigint,
        MainTs.initialSyncAndDiscovery, MainTs.subscribeCommandTopics,
        Part000.onConnect, Part000.onMessage, Part000.onTick, Part000.onSigint,
        Part000.initialSyncAndDiscovery, Part000.subscribeCommandTopics,
        Part001.onConnect, Part001.onMessage, Part001.onTick, Part001.onSigint,
        Part001.initialSyncAndDiscovery, Part001.subscribeCommandTopics;
      cbv zeta; unfold publishJson, publish;
      repeat
        lazymatch goal with
        | |- neverThrows (MainTs.refreshWallpapersProfiles ?ip) =>
            exact (refresh_neverThrows VMainTs ip)
        | |- neverThrows (Part000.refreshWallpapersProfilesAndCurrent ?ip) =>
            exact (refresh_neverThrows VPart000 ip)
        | |- neverThrows (Part001.refreshWallpapersProfiles ?ip) =>
            exact (refresh_neverThrows VPart001 ip)
        | |- _ => neverThrows_step
        end. }
  destruct (H env w) as ([] & w' & Hrun). now exists w'.
Qed.

(** ** Which handlers write which shared variables *)

Section Keeps.

Context {X : Type} (f : Vars -> X).

Lemma keeps_ret {A} (a : A) : keeps f (ret a).
Proof. intros env w. reflexivity. Qed.

Lemma keeps_throw {A} (e : JsError) : keeps f (@throw A e).
Proof. intros env w. reflexivity. Qed.

Lemma keeps_getVars : keeps f getVars.
Proof. intros env w. reflexivity. Qed.

Lemma keeps_getEnv : keeps f getEnv.
Proof. intros env w. reflexivity. Qed.

Lemma keeps_emit (e : Effect) : keeps f (emit e).
Proof. intros env w. reflexivity. Qed.

Lemma keeps_setVars (g : Vars -> Vars) :
  (forall v, f (g v) = f v) -> keeps f (setVars g).
Proof. intros Hg env w. apply Hg. Qed.

Lemma keeps_await (c : ApiCall) : keeps f (await c).
Proof.
  intros env w. unfold await.
  destruct (perform (we env) (calls (trace w)) c); reflexivity.
Qed.

Lemma keeps_awaitQuery {A} (c : ApiCall)
    (answer : WallpaperEngineApi -> list ApiCall -> JsError + A) :
  keeps f (awaitQuery c answer).
Proof.
  intros env w. unfold awaitQuery.
  destruct (answer (we env) (calls (trace w))); reflexivity.
Qed.

Lemma keeps_bind {A B} (c : M A) (k : A -> M B) :
  keeps f c -> (forall a, keeps f (k a)) -> keeps f (bind c k).
Proof.
  intros Hc Hk env w. unfold bind.
  specialize (Hc env w).
  destruct (c env w) as [[a|e] w1]; cbn [snd] in *.
  - now rewrite Hk.
  - exact Hc.
Qed.

Lemma keeps_tryCatch {A} (c : M A) (h : JsError -> M A) :
  keeps f c -> (forall e, keeps f (h e)) -> keeps f (tryCatch c h).
Proof.
  intros Hc Hh env w. unfold tryCatch.
  specialize (Hc env w).
  destruct (c env w) as [[a|e] w1]; cbn [snd] in *.
  - exact Hc.
  - now rewrite Hh.
Qed.

Lemma keeps_forOf {A} (l : list A) (body : A -> M unit) :
  (forall x, keeps f (body x)) -> keeps f (forOf l body).
Proof.
  intros Hb. induction l as [|x l IH]; cbn [forOf].
  - apply keeps_ret.
  - apply keeps_bind; [apply Hb | intros _; exact IH].
Qed.

End Keeps.

Ltac keeps_step :=
  lazymatch goal with
  | |- keeps _ (ret _) => apply keeps_ret
  | |- keeps _ (throw _) => apply keeps_throw
  | |- keeps _ getVars => apply keeps_getVars
  | |- keeps _ getEnv => apply keeps_getEnv
  | |- keeps _ (emit _) => apply keeps_emit
  | |- keeps _ (setVars _) => apply keeps_setVars; intros ?; reflexivity
  | |- keeps _ (await _) => apply keeps_await
  | |- keeps _ (awaitQuery _ _) => apply keeps_awaitQuery
  | |- keeps _ (bind _ _) => apply keeps_bind; [|intros ?]
  | |- keeps _ (tryCatch _ _) => apply keeps_tryCatch; [|intros ?]
  | |- keeps _ (forOf _ _) => apply keeps_forOf; intros ?
  | |- keeps _ (if ?b then _ else _) => destruct b
  | |- keeps _ (match ?x with _ => _ end) => destruct x
  end.

Ltac keeps_auto :=
  cbv zeta;
  unfold publishJson, publish, stringify, parseJson, setState, setWallpapers,
    setProfiles, setCurrentWallpaper;
  repeat keeps_step.

Ltac unfold_handlers :=
  unfold MainTs.onConnect, MainTs.onMessage, MainTs.onTick, MainTs.onSigint,
    MainTs.initialSyncAndDiscovery, MainTs.subscribeCommandTopics,
    MainTs.refreshWallpapersProfiles,
    Part000.onConnect, Part000.onMessage, Part000.onTick, Part000.onSigint,
    Part000.initialSyncAndDiscovery, Part000.subscribeCommandTopics,
    Part000.refreshWallpapersProfilesAndCurrent, Part000.publishCurrentWallpaper,
    Part001.onConnect, Part001.onMessage, Part001.onTick, Part001.onSigint,
    Part001.initialSyncAndDiscovery, Part001.subscribeCommandTopics,
    Part001.refreshWallpapersProfiles, Part001.selectWallpaper.

(** In a chain of topic tests, the test for entity [e] either contradicts
    [H] (the topic is not that command topic) or fails. *)
Ltac not_topic H e :=
  match goal with
  | |- context [?topic =? makeTopic ["we"; ?n; e; "set"]] =>
      destruct (String.eqb_spec topic (makeTopic ["we"; n; e; "set"])) as [Heq|_];
      [ exfalso; revert Heq; apply H | ]
  end.

Ltac any_topic :=
  repeat match goal with
         | |- keeps _ (tryCatch (if ?b then _ else _) _) => destruct b
         | |- keeps _ (if ?b then _ else _) => destruct b
         end.

(** X8: the shadow booleans are written by toggle commands only (and by
    the startup block of part_001 on connect). Every other event, that is
    a message on a topic other than the three toggle command topics, a
    timer tick, an interrupt, a broker error, and in main.ts and part_000
    a connect, leaves all three shadow booleans as they were, whatever the
    application answers. *)
Theorem shadow_written_by_toggles_only (v : Variant) (localIp : string)
    (ev : Event) (env : Env) (w : World) :
  match ev with
  | Message topic _ => forall t, topic <> commandTopic localIp (toggleEntity t)
  | Connect => v <> VPart001
  | _ => True
  end ->
  state (vars (snd (handle v localIp ev env w))) = state (vars w).
Proof.
  intros H. revert env w. change (keeps state (handle v localIp ev)).
  destruct ev as [| |topic msg| |].
  - destruct v; [| |contradiction];
      cbn [handle MainTs.handle Part000.handle]; unfold_handlers; keeps_auto.
  - destruct v; cbn [handle MainTs.handle Part000.handle Part001.handle];
      keeps_auto.
  - assert (Hi := H Icons). assert (Hm := H Muted). assert (Hp := H Paused).
    unfold commandTopic, toggleEntity in Hi, Hm, Hp.
    destruct v; cbn [handle MainTs.handle Part000.handle Part001.handle];
      unfold MainTs.onMessage, Part000.onMessage, Part001.onMessage,
        MainTs.nodeId, Part000.nodeId, Part001.nodeId;
      not_topic Hi "show_icons"; not_topic Hm "muted"; not_topic Hp "paused";
      any_topic; unfold_handlers; keeps_auto.
  - destruct v; cbn [handle MainTs.handle Part000.handle Part001.handle];
      unfold_handlers; keeps_auto.
  - destruct v; cbn [handle MainTs.handle Part000.handle Part001.handle];
      unfold_handlers; keeps_auto.
Qed.

Lemma shadow_written_by_toggles_only_witness :
  state (vars (snd (handle VPart001 "10.0.0.7"
                      (Message (commandTopic "10.0.0.7" "select_wallpaper")
                               "Sunset (abc123)|all")
                      (envWith deadApi) sunsetWorld)))
  = state (vars sunsetWorld).
Proof.
  apply (shadow_written_by_toggles_only VPart001 "10.0.0.7"
           (Message (commandTopic "10.0.0.7" "select_wallpaper") "Sunset (abc123)|all")).
  intros []; discriminate.
Defined.

(** X9: the two catalogs are written by the refresh pass only. A message
    on any topic other than the refresh command topic, an interrupt and a
    broker error leave the wallpaper catalog and the profile list as they
    were; so a select or properties command never changes what a later
    select command is resolved against. *)
Theorem catalogs_written_by_refresh_only (v : Variant) (localIp : string)
    (ev : Event) (env : Env) (w : World) :
  match ev with
  | Message topic _ => topic <> commandTopic localIp "refresh"
  | Sigint | MqttError => True
  | Connect | Tick => False
  end ->
  wallpapers (vars (snd (handle v localIp ev env w))) = wallpapers (vars w) /\
  profiles (vars (snd (handle v localIp ev env w))) = profiles (vars w).
Proof.
  intros H.
  enough (Hk : keeps catalogs (handle v localIp ev)).
  { specialize (Hk env w). unfold catalogs in Hk. now injection Hk. }
  destruct ev as [| |topic msg| |]; try contradiction.
  - destruct v; cbn [handle MainTs.handle Part000.handle Part001.handle];
      keeps_auto.
  - unfold commandTopic in H.
    destruct v; cbn [handle MainTs.handle Part000.handle Part001.handle];
      unfold MainTs.onMessage, Part000.onMessage, Part001.onMessage,
        MainTs.nodeId, Part000.nodeId, Part001.nodeId;
      not_topic H "refresh";
      any_topic; unfold_handlers; keeps_auto.
  - destruct v; cbn [handle MainTs.handle Part000.handle Part001.handle];
      unfold_handlers; keeps_auto.
Qed.

Lemma catalogs_written_by_refresh_only_witness :
  wallpapers (vars (snd (handle VPart000 "10.0.0.7"
                           (Message (commandTopic "10.0.0.7" "select_wallpaper") "abc123")
                           (envWith healthyApi) sunsetWorld)))
  = [sunset] /\
  profiles (vars (snd (handle VPart000 "10.0.0.7"
                         (Message (commandTopic "10.0.0.7" "select_wallpaper") "abc123")
                         (envWith healthyApi) sunsetWorld)))
  = ["Work"].
Proof.
  apply (catalogs_written_by_refresh_only VPart000 "10.0.0.7"
           (Message (commandTopic "10.0.0.7" "select_wallpaper") "abc123")).
  discriminate.
Defined.

(** ** More on the refresh pass *)

(** X10: a refresh requested by command is the same pass as the one the
    timer runs: a message on the refresh command topic, whatever its
    payload, and a timer tick both do exactly what the refresh function
    does from the same world. *)
Theorem manual_refresh_is_refresh (v : Variant) (localIp msg : string)
    (env : Env) (w : World) :
  handle v localIp (Message (commandTopic localIp "refresh") msg) env w
    = refresh v localIp env w /\
  handle v localIp Tick env w = refresh v localIp env w.
Proof.
  destruct (refresh_neverThrows v localIp env w) as ([] & w' & Hrun).
  destruct v; cbn [handle MainTs.handle Part000.handle Part001.handle refresh] in *;
    (split;
     [ unfold MainTs.onMessage, Part000.onMessage, Part001.onMessage, commandTopic,
         MainTs.nodeId, Part000.nodeId, Part001.nodeId;
       rewrite ?topic_eqb; cbn [String.eqb Ascii.eqb Bool.eqb]
     | unfold MainTs.onTick, Part000.onTick, Part001.onTick ]);
    unfold tryCatch; rewrite Hrun; reflexivity.
Qed.

(** X11: a pass that fails at the profile query leaves the catalogs out of
    step. When the wallpaper query resolves and the profile query rejects,
    the pass still completes normally, the wallpaper catalog has already
    been replaced by the new entries, the profile list is the old one, and
    nothing is published, in every variant. *)
Theorem refresh_profile_failure (v : Variant) (localIp : string) (env : Env)
    (w : World) (wp : list RawWallpaper) (e : JsError) :
  listWallpapers (we env) (calls (trace w)) = inr wp ->
  listProfiles (we env) (calls (trace w) ++ [ListWallpapers]) = inl e ->
  refresh v localIp env w
  = (Normal tt,
     {| vars := {| wallpapers := toEntries wp;
                   profiles := profiles (vars w);
                   currentWallpaper := currentWallpaper (vars w);
                   state := state (vars w) |};
        trace := trace w ++ [Call ListWallpapers; Call ListProfiles] |}).
Proof.
  intros Hwp Hps.
  destruct v; unfold refresh, MainTs.refreshWallpapersProfiles,
    Part000.refreshWallpapersProfilesAndCurrent, Part001.refreshWallpapersProfiles;
    exec; rewrite Hwp; cbn [vars trace]; rewrite calls_app; cbn [calls];
    rewrite Hps; cbn [vars trace wallpapers profiles currentWallpaper state];
    rewrite <- app_assoc; reflexivity.
Qed.

Lemma refresh_profile_failure_witness :
  let api := {| perform := fun _ _ => None;
                listWallpapers := fun _ => inr [sunsetRaw];
                listProfiles := fun _ => inl (Error "listProfiles failed");
                current := fun _ => inr sunsetCurrent |} in
  refresh VMainTs "10.0.0.7" (envWith api) startWorld
  = (Normal tt,
     {| vars := {| wallpapers := [sunset]; profiles := []; currentWallpaper := None;
                   state := state initialVars |};
        trace := [Call ListWallpapers; Call ListProfiles] |}).
Proof.
  intros api.
  exact (refresh_profile_failure VMainTs "10.0.0.7" (envWith api) startWorld
           [sunsetRaw] (Error "listProfiles failed") eq_refl eq_refl).
Defined.

(** X12: a pass of main.ts or part_001 in which both queries resolve
    replaces both catalogs wholesale (whatever they held; a missing
    profile list counts as empty; an entry without id gets its path as id)
    and publishes exactly four retained messages: the re-registration of
    the wallpaper select, whose options are the ids in main.ts and the four
    "title (id)|selector" strings of every entry in part_001, the
    re-registration of the profile select, and the two raw catalogs. The
    device of the re-registrations is computed from the interfaces as they
    are at the time of the pass. *)
Theorem refresh_success (v : Variant) (localIp : string) (env : Env)
    (w : World) (wp : list RawWallpaper) (ps : option (list string)) :
  v <> VPart000 ->
  listWallpapers (we env) (calls (trace w)) = inr wp ->
  listProfiles (we env) (calls (trace w) ++ [ListWallpapers]) = inr ps ->
  exists w',
    refresh v localIp env w = (Normal tt, w') /\
    wallpapers (vars w') = toEntries wp /\
    profiles (vars w') = orEmpty ps /\
    state (vars w') = state (vars w) /\
    calls (added w w') = [ListWallpapers; ListProfiles] /\
    publishes (added w w')
    = [(haDiscoveryTopic "select" (nodeIdOf localIp) "select_wallpaper",
        JSON_stringify (js env)
          (selectPayload (nodeIdOf localIp) "Wallpaper" "select_wallpaper"
             (match v with
              | VPart001 => flat_map Part001.optionsOf (toEntries wp)
              | _ => map id (toEntries wp)
              end)
             (haDevice (getLocalIPv4 (networkInterfaces env)))), true);
       (haDiscoveryTopic "select" (nodeIdOf localIp) "select_profile",
        JSON_stringify (js env)
          (selectPayload (nodeIdOf localIp) "Profile" "select_profile"
             (orEmpty ps) (haDevice (getLocalIPv4 (networkInterfaces env)))), true);
       (makeTopic ["we"; nodeIdOf localIp; "wallpapers"; "list"],
        JSON_stringify (js env) (wallpapersJson (toEntries wp)), true);
       (makeTopic ["we"; nodeIdOf localIp; "profiles"; "list"],
        JSON_stringify (js env) (stringsJson (orEmpty ps)), true)].
Proof.
  intros Hv Hwp Hps.
  destruct v; [|contradiction|];
    unfold refresh, MainTs.refreshWallpapersProfiles,
      Part001.refreshWallpapersProfiles;
    exec; rewrite Hwp; cbn [vars trace]; rewrite calls_app; cbn [calls];
    rewrite Hps; cbn [vars trace wallpapers profiles currentWallpaper state];
    (eexists; split; [reflexivity|]);
    cbn [vars trace wallpapers profiles state];
    rewrite <- !app_assoc, added_app; repeat split.
Qed.

Lemma refresh_success_witness :
  exists w',
    refresh VPart001 "10.0.0.7" (envWith healthyApi) startWorld = (Normal tt, w') /\
    wallpapers (vars w') = [sunset] /\
    profiles (vars w') = ["Work"] /\
    length (publishes (trace w')) = 4.
Proof.
  destruct (refresh_success VPart001 "10.0.0.7" (envWith healthyApi) startWorld
              [sunsetRaw] (Some ["Work"])) as (w' & Hrun & Hw & Hp & _ & _ & Hpub);
    [discriminate | reflexivity | reflexivity |].
  exists w'. repeat split; [exact Hrun | exact Hw | exact Hp |].
  change (publishes (trace w')) with (publishes (added startWorld w')).
  now rewrite Hpub.
Defined.

(** ** The connect sequence *)

Lemma forOf_emit_run {A} (l : list A) (f : A -> Effect) (env : Env) (w : World) :
  forOf l (fun x => emit (f x)) env w
  = (Normal tt, {| vars := vars w; trace := trace w ++ map f l |}).
Proof.
  revert w. induction l as [|x l IH]; intros [vs tr]; cbn [forOf map].
  - unfold ret. cbn [vars trace]. now rewrite app_nil_r.
  - unfold bind, emit at 1. rewrite IH. cbn [vars trace].
    now rewrite <- app_assoc.
Qed.

Lemma forOf_publishJson_run {A} (l : list A) (t : A -> string) (p : A -> jsval)
    (env : Env) (w : World) :
  forOf l (fun x => publishJson (t x) (p x) true) env w
  = (Normal tt,
     {| vars := vars w;
        trace := trace w ++
          map (fun x => Publish (t x) (JSON_stringify (js env) (p x)) true) l |}).
Proof.
  revert w. induction l as [|x l IH]; intros [vs tr]; cbn [forOf map].
  - unfold ret. cbn [vars trace]. now rewrite app_nil_r.
  - unfold bind at 1. unfold publishJson at 1. unfold bind at 1, getEnv, publish, emit.
    rewrite IH. cbn [vars trace]. now rewrite <- app_assoc.
Qed.

Lemma subscribe_run (v : Variant) (localIp : string) (env : Env) (w : World) :
  subscribeCommandTopics v localIp env w
  = (Normal tt,
     {| vars := vars w; trace := trace w ++ map Subscribe (subscribed v localIp) |}).
Proof.
  destruct v; cbn [subscribeCommandTopics];
    unfold MainTs.subscribeCommandTopics, Part000.subscribeCommandTopics,
      Part001.subscribeCommandTopics; cbv zeta; rewrite forOf_emit_run;
    reflexivity.
Qed.

Lemma registration_run (v : Variant) (localIp : string) (env : Env) (w : World) :
  exists regs,
    initialSyncAndDiscovery v localIp env w
    = (Normal tt, {| vars := vars w; trace := trace w ++ regs |}) /\
    length regs = match v with VPart000 => 9 | _ => 8 end /\
    Forall (isRegistration (nodeIdOf localIp)) regs.
Proof.
  destruct v; cbn [initialSyncAndDiscovery].
  - unfold MainTs.initialSyncAndDiscovery. cbv zeta.
    rewrite forOf_publishJson_run. eexists. split; [reflexivity|].
    split; [reflexivity|].
    unfold entities. cbn [map e_type e_id].
    repeat constructor; eexists _, _, _; reflexivity.
  - unfold Part000.initialSyncAndDiscovery. exec.
    rewrite <- !app_assoc. cbn [app].
    eexists. split; [reflexivity|]. split; [reflexivity|].
    repeat constructor; eexists _, _, _; reflexivity.
  - unfold Part001.initialSyncAndDiscovery. cbv zeta.
    rewrite forOf_publishJson_run. eexists. split; [reflexivity|].
    split; [reflexivity|].
    unfold entities. cbn [map e_type e_id].
    repeat constructor; eexists _, _, _; reflexivity.
Qed.

Lemma bind_normal {A B} (c : M A) (k : A -> M B) (env : Env) (w w1 : World) (a : A) :
  c env w = (Normal a, w1) -> bind c k env w = k a env w1.
Proof. intros H. unfold bind. now rewrite H. Qed.

(** The startup block of part_001: the three calls in order up to the
    first rejection, and the default state only when all three resolved. *)
Lemma part001_startup_run (env : Env) (w : World) :
  tryCatch
    (await ShowIcons ;;
     await Unmute ;;
     await Play ;;
     setState (fun _ => {| showIcons := true; muted := false; paused := false |}))
    (fun _ => ret tt) env w
  = (Normal tt,
     {| vars := {| wallpapers := wallpapers (vars w); profiles := profiles (vars w);
                   currentWallpaper := currentWallpaper (vars w);
                   state := snd (startupOutcome (we env) (calls (trace w))
                                   (state (vars w))) |};
        trace := trace w ++
          map Call (fst (startupOutcome (we env) (calls (trace w)) (state (vars w)))) |}).
Proof.
  destruct w as [[ws ps cw st] tr]. unfold startupOutcome. exec.
  cbn [wallpapers profiles currentWallpaper state].
  destruct (perform (we env) (calls tr) ShowIcons); cbn [vars trace fst snd map];
    [reflexivity|].
  rewrite ?calls_app; cbn [calls]; rewrite <- ?app_assoc; cbn [app].
  destruct (perform (we env) (calls tr ++ [ShowIcons]) Unmute);
    cbn [vars trace fst snd map]; [reflexivity|].
  rewrite ?calls_app; cbn [calls]; rewrite <- ?app_assoc; cbn [app].
  destruct (perform (we env) (calls tr ++ [ShowIcons; Unmute]) Play);
    cbn [vars trace fst snd map]; reflexivity.
Qed.

(** X13: what a connect does, in every variant and whatever the
    application answers: it publishes the retained "online" presence
    message first; part_001 then makes its startup calls; then come the
    registrations (eight, nine in part_000), each a retained message on a
    discovery topic of the node; then the subscriptions, to the nine
    command topics (part_000 also to the show_icons state topic); then one
    refresh pass runs; and last the timer is armed, also when that first
    pass failed. The handler completes normally. *)
Theorem connect_sequence (v : Variant) (localIp : string) (env : Env) (w : World) :
  exists startup regs w1 w2,
    (v <> VPart001 -> startup = []) /\
    length regs = match v with VPart000 => 9 | _ => 8 end /\
    Forall (isRegistration (nodeIdOf localIp)) regs /\
    trace w1 = (trace w ++
                Publish (statusTopic localIp) "online" true ::
                map Call startup ++ regs ++ map Subscribe (subscribed v localIp))%list /\
    refresh v localIp env w1 = (Normal tt, w2) /\
    handle v localIp Connect env w
    = (Normal tt,
       {| vars := vars w2; trace := trace w2 ++ [SetInterval REFRESH_INTERVAL] |}).
Proof.
  set (W0 := {| vars := vars w;
                trace := trace w ++ [Publish (statusTopic localIp) "online" true] |}).
  assert (H0 : forall n, n = nodeIdOf localIp ->
            publish ("homeassistant/status/" ++ n) "online" true env w = (Normal tt, W0)).
  { intros n ->. reflexivity. }
  destruct v; cbn [handle MainTs.handle Part000.handle Part001.handle].
  - destruct (registration_run VMainTs localIp env W0) as (regs & Hreg & Hlen & Hall).
    set (W1 := {| vars := vars W0; trace := trace W0 ++ regs |}) in Hreg.
    pose proof (subscribe_run VMainTs localIp env W1) as Hsub.
    set (W2 := {| vars := vars W1;
                  trace := trace W1 ++ map Subscribe (subscribed VMainTs localIp) |}) in Hsub.
    destruct (refresh_neverThrows VMainTs localIp env W2) as ([] & w2 & Hrf).
    exists [], regs, W2, w2.
    split; [reflexivity|]. split; [exact Hlen|]. split; [exact Hall|].
    split; [cbn [trace W2 W1 W0 map app]; rewrite <- !app_assoc; reflexivity|].
    split; [exact Hrf|].
    unfold MainTs.onConnect.
    rewrite (bind_normal _ _ env w W0 tt (H0 _ eq_refl)).
    rewrite (bind_normal _ _ env W0 W1 tt Hreg).
    rewrite (bind_normal _ _ env W1 W2 tt Hsub).
    rewrite (bind_normal _ _ env W2 w2 tt Hrf).
    reflexivity.
  - destruct (registration_run VPart000 localIp env W0) as (regs & Hreg & Hlen & Hall).
    set (W1 := {| vars := vars W0; trace := trace W0 ++ regs |}) in Hreg.
    pose proof (subscribe_run VPart000 localIp env W1) as Hsub.
    set (W2 := {| vars := vars W1;
                  trace := trace W1 ++ map Subscribe (subscribed VPart000 localIp) |}) in Hsub.
    destruct (refresh_neverThrows VPart000 localIp env W2) as ([] & w2 & Hrf).
    exists [], regs, W2, w2.
    split; [reflexivity|]. split; [exact Hlen|]. split; [exact Hall|].
    split; [cbn [trace W2 W1 W0 map app]; rewrite <- !app_assoc; reflexivity|].
    split; [exact Hrf|].
    unfold Part000.onConnect.
    rewrite (bind_normal _ _ env w W0 tt (H0 _ eq_refl)).
    rewrite (bind_normal _ _ env W0 W1 tt Hreg).
    rewrite (bind_normal _ _ env W1 W2 tt Hsub).
    rewrite (bind_normal _ _ env W2 w2 tt Hrf).
    reflexivity.
  - pose proof (part001_startup_run env W0) as Hst.
    set (startup := fst (startupOutcome (we env) (calls (trace W0)) (state (vars W0))))
      in Hst.
    set (Ws := {| vars := _; trace := trace W0 ++ map Call startup |}) in Hst.
    destruct (registration_run VPart001 localIp env Ws) as (regs & Hreg & Hlen & Hall).
    set (W1 := {| vars := vars Ws; trace := trace Ws ++ regs |}) in Hreg.
    pose proof (subscribe_run VPart001 localIp env W1) as Hsub.
    set (W2 := {| vars := vars W1;
                  trace := trace W1 ++ map Subscribe (subscribed VPart001 localIp) |}) in Hsub.
    destruct (refresh_neverThrows VPart001 localIp env W2) as ([] & w2 & Hrf).
    exists startup, regs, W2, w2.
    split; [intros Hv; contradiction|]. split; [exact Hlen|]. split; [exact Hall|].
    split; [cbn [trace W2 W1 Ws W0 app]; rewrite <- !app_assoc; reflexivity|].
    split; [exact Hrf|].
    unfold Part001.onConnect.
    rewrite (bind_normal _ _ env w W0 tt (H0 _ eq_refl)).
    rewrite (bind_normal _ _ env W0 Ws tt Hst).
    rewrite (bind_normal _ _ env Ws W1 tt Hreg).
    rewrite (bind_normal _ _ env W1 W2 tt Hsub).
    rewrite (bind_normal _ _ env W2 w2 tt Hrf).
    reflexivity.
Qed.

Lemma connect_sequence_witness :
  exists w2,
    handle VMainTs "10.0.0.7" Connect (envWith deadApi) startWorld
    = (Normal tt,
       {| vars := vars w2; trace := trace w2 ++ [SetInterval REFRESH_INTERVAL] |}).
Proof.
  destruct (connect_sequence VMainTs "10.0.0.7" (envWith deadApi) startWorld)
    as (startup & regs & w1 & w2 & _ & _ & _ & _ & _ & H).
  exists w2. exact H.
Defined.

Lemma calls_map_Call (l : list ApiCall) : calls (map Call l) = l.
Proof. induction l as [|c l IH]; simpl; [reflexivity | now rewrite IH]. Qed.

Lemma refresh_keeps_state (v : Variant) (localIp : string) :
  keeps state (refresh v localIp).
Proof. destruct v; cbn [refresh]; unfold_handlers; keeps_auto. Qed.

Lemma refresh_appends (v : Variant) (localIp : string) :
  appends (fun _ => True) (refresh v localIp).
Proof.
  destruct v; cbn [refresh]; unfold_handlers; appends_auto; exact I.
Qed.

(** X14: the startup block of part_001's connect handler. It calls
    showIcons, unmute and play in this order, each only if the calls
    before it resolved; the shadow state after the connect is the default
    state (icons shown, not muted, not paused) when all three resolved and
    is the shadow state from before the connect otherwise; and a rejection
    in the block does not keep the connect from completing. *)
Theorem part001_connect_defaults (localIp : string) (env : Env) (w : World) :
  exists w' rest,
    handle VPart001 localIp Connect env w = (Normal tt, w') /\
    state (vars w')
    = snd (startupOutcome (we env) (calls (trace w)) (state (vars w))) /\
    calls (added w w')
    = (fst (startupOutcome (we env) (calls (trace w)) (state (vars w))) ++ rest)%list.
Proof.
  set (W0 := {| vars := vars w;
                trace := trace w ++ [Publish (statusTopic localIp) "online" true] |}).
  assert (Hh : calls (trace W0) = calls (trace w)).
  { cbn [trace W0]. rewrite calls_app. cbn [calls]. apply app_nil_r. }
  pose proof (part001_startup_run env W0) as Hst.
  rewrite Hh in Hst. cbn [vars W0] in Hst.
  set (out := startupOutcome (we env) (calls (trace w)) (state (vars w))) in *.
  set (Ws := {| vars := _; trace := trace W0 ++ map Call (fst out) |}) in Hst.
  destruct (registration_run VPart001 localIp env Ws) as (regs & Hreg & _ & _).
  set (W1 := {| vars := vars Ws; trace := trace Ws ++ regs |}) in Hreg.
  pose proof (subscribe_run VPart001 localIp env W1) as Hsub.
  set (W2 := {| vars := vars W1;
                trace := trace W1 ++ map Subscribe (subscribed VPart001 localIp) |}) in Hsub.
  destruct (refresh_neverThrows VPart001 localIp env W2) as ([] & w2 & Hrf).
  pose proof (refresh_keeps_state VPart001 localIp env W2) as Hkeep.
  destruct (refresh_appends VPart001 localIp env W2) as (new & Hnew & _).
  rewrite Hrf in Hkeep, Hnew. cbn [snd] in Hkeep, Hnew.
  exists {| vars := vars w2; trace := trace w2 ++ [SetInterval REFRESH_INTERVAL] |}.
  exists (calls (regs ++ map Subscribe (subscribed VPart001 localIp) ++ new
                 ++ [SetInterval REFRESH_INTERVAL])).
  split; [|split].
  - cbn [handle Part001.handle]. unfold Part001.onConnect.
    assert (H0 : publish ("homeassistant/status/" ++ Part001.nodeId localIp)
                   "online" true env w = (Normal tt, W0)) by reflexivity.
    rewrite (bind_normal _ _ env w W0 tt H0).
    rewrite (bind_normal _ _ env W0 Ws tt Hst).
    rewrite (bind_normal _ _ env Ws W1 tt Hreg).
    rewrite (bind_normal _ _ env W1 W2 tt Hsub).
    rewrite (bind_normal _ _ env W2 w2 tt Hrf).
    reflexivity.
  - cbn [vars]. rewrite Hkeep. reflexivity.
  - cbn [trace]. rewrite Hnew. cbn [trace W2 W1 Ws W0].
    rewrite <- !app_assoc. rewrite added_app.
    cbn [app calls]. rewrite calls_app, calls_map_Call. reflexivity.
Qed.

(** ** Selecting a wallpaper in part_001 *)

(** The load calls of a select command of part_001, read off its payload
    and the catalog. *)
Lemma part001_select_run (localIp msg : string) (env : Env) (w : World) :
  Part001.onMessage localIp (commandTopic localIp "select_wallpaper") msg env w
  = (Normal tt,
     {| vars := vars w;
        trace := trace w ++
          map Call
            match find (fun x => Part001.render x =? nth 0 (split "|" msg) EmptyString)
                       (wallpapers (vars w)) with
            | None => []
            | Some m =>
                if match nth_error (split "|" msg) 1 with
                   | Some s => s =? "all"
                   | None => false
                   end
                then [Load (id m) (Some 0%float); Load (id m) (Some 1%float);
                      Load (id m) (Some 2%float)]
                else [Load (id m) (Some (parseInt (js env) (nth_error (split "|" msg) 1)))]
            end ++
          [Publish (stateTopic localIp "select_wallpaper") msg true] |}).
Proof.
  topics. unfold Part001.selectWallpaper. exec.
  destruct (find _ (wallpapers (vars w))) as [m|].
  - destruct (match nth_error (split "|" msg) 1 with
              | Some s => s =? "all"
              | None => false
              end).
    + unfold Part001.allMonitors. cbn [forOf]. exec.
      repeat match goal with
             | |- context [perform ?a ?h ?c] => destruct (perform a h c); cbn [vars trace]
             end;
        cbn [map app]; rewrite <- ?app_assoc; reflexivity.
    + exec.
      match goal with
      | |- context [perform ?a ?h ?c] => destruct (perform a h c); cbn [vars trace]
      end;
        cbn [map app]; rewrite <- ?app_assoc; reflexivity.
  - destruct (match nth_error (split "|" msg) 1 with
              | Some s => s =? "all"
              | None => false
              end); reflexivity.
Qed.

(** X15: whatever the payload of a select command, part_001 loads only
    wallpapers of its catalog: it makes at most three control calls, each a
    load with a monitor argument and with the id of a catalog entry whose
    "title (id)" text is the part of the payload before the first '|'; it
    completes normally even when loads reject, changes no shared variable,
    and ends by publishing the payload as received, retained, on the state
    topic of the select. *)
Theorem part001_select_loads_from_catalog (localIp msg : string) (env : Env)
    (w : World) :
  exists loads,
    Part001.onMessage localIp (commandTopic localIp "select_wallpaper") msg env w
    = (Normal tt,
       {| vars := vars w;
          trace := trace w ++ map Call loads ++
                   [Publish (stateTopic localIp "select_wallpaper") msg true] |}) /\
    length loads <= 3 /\
    forall c, In c loads ->
      exists m monitor,
        c = Load (id m) (Some monitor) /\
        In m (wallpapers (vars w)) /\
        Part001.render m = nth 0 (split "|" msg) EmptyString.
Proof.
  eexists. split; [apply part001_select_run|].
  destruct (find _ (wallpapers (vars w))) as [m|] eqn:Hfind.
  - apply find_some in Hfind as [Hin Hr]. apply String.eqb_eq in Hr.
    destruct (match nth_error (split "|" msg) 1 with
              | Some s => s =? "all"
              | None => false
              end); (split; [cbn; lia|]); intros c Hc; cbn in Hc;
      repeat (destruct Hc as [<-|Hc]; [eexists m, _; repeat split; assumption|]);
      contradiction.
  - split; [cbn; lia|]. intros c [].
Qed.

Lemma part001_select_loads_from_catalog_witness :
  exists loads,
    Part001.onMessage "10.0.0.7" (commandTopic "10.0.0.7" "select_wallpaper")
      "Sunset (abc123)|2" (envWith deadApi) sunsetWorld
    = (Normal tt,
       {| vars := vars sunsetWorld;
          trace := map Call loads ++
                   [Publish (stateTopic "10.0.0.7" "select_wallpaper")
                            "Sunset (abc123)|2" true] |}) /\
    length loads <= 3.
Proof.
  destruct (part001_select_loads_from_catalog "10.0.0.7" "Sunset (abc123)|2"
              (envWith deadApi) sunsetWorld) as (loads & Hrun & Hlen & _).
  exists loads. split; [exact Hrun | exact Hlen].
Defined.

(** X16: the options that part_001 registers for the wallpaper select come
    back as commands. For a catalog entry whose "title (id)" text has no
    '|', each of its four options "title (id)|all", "...|0", "...|1",
    "...|2" splits back into that text and the selector, and is resolved
    to the first catalog entry with the same text: selector "all" gives
    the three loads for monitors 0, 1, 2 with that entry's id, a digit
    gives one load with the parsed digit as monitor. (An entry whose title
    or id contains '|' is not covered: its options are cut at the first
    '|'.) *)
Theorem part001_option_round_trip (localIp : string) (env : Env) (w : World)
    (e : WallpaperEntry) (option : string) :
  In e (wallpapers (vars w)) ->
  occurs "|" (Part001.render e) = false ->
  In option (Part001.optionsOf e) ->
  exists m selector,
    split "|" option = [Part001.render e; selector] /\
    find (fun x => Part001.render x =? Part001.render e) (wallpapers (vars w)) = Some m /\
    Part001.render m = Part001.render e /\
    calls (added w (snd (Part001.onMessage localIp
                           (commandTopic localIp "select_wallpaper") option env w)))
    = if selector =? "all"
      then [Load (id m) (Some 0%float); Load (id m) (Some 1%float);
            Load (id m) (Some 2%float)]
      else [Load (id m) (Some (parseInt (js env) (Some selector)))].
Proof.
  intros Hin Hbar Hopt.
  destruct (find_some_of_In (fun x => Part001.render x =? Part001.render e)
              (wallpapers (vars w)) e Hin (String.eqb_refl _)) as (m & Hfind & Hm).
  apply String.eqb_eq in Hm.
  assert (Hsplit : exists selector,
            In selector ["all"; "0"; "1"; "2"] /\
            split "|" option = [Part001.render e; selector]).
  { unfold Part001.optionsOf in Hopt. cbn [map] in Hopt.
    repeat (destruct Hopt as [<-|Hopt];
            [ eexists; split;
              [| change (Part001.render e ++ "|" ++ ?s)
                   with (Part001.render e ++ String "|" s);
                 rewrite (split_append "|" _ _ Hbar); reflexivity ];
              cbn; tauto |]).
    contradiction. }
  destruct Hsplit as (selector & Hsel & Hsplit).
  exists m, selector. split; [exact Hsplit|]. split; [exact Hfind|].
  split; [exact Hm|].
  rewrite part001_select_run. cbn [snd]. rewrite added_app.
  rewrite Hsplit. cbn [nth nth_error]. rewrite Hfind.
  rewrite calls_app, calls_map_Call. cbn [calls]. rewrite app_nil_r.
  destruct (selector =? "all"); reflexivity.
Qed.

Lemma part001_option_round_trip_witness :
  exists m selector,
    split "|" "Sunset (abc123)|2" = [Part001.render sunset; selector] /\
    find (fun x => Part001.render x =? Part001.render sunset) [sunset] = Some m /\
    Part001.render m = Part001.render sunset /\
    calls (added sunsetWorld
             (snd (Part001.onMessage "10.0.0.7"
                     (commandTopic "10.0.0.7" "select_wallpaper")
                     "Sunset (abc123)|2" (envWith healthyApi) sunsetWorld)))
    = if selector =? "all"
      then [Load (id m) (Some 0%float); Load (id m) (Some 1%float);
            Load (id m) (Some 2%float)]
      else [Load (id m) (Some (parseInt sampleJs (Some selector)))].
Proof.
  apply (part001_option_round_trip "10.0.0.7" (envWith healthyApi) sunsetWorld
           sunset "Sunset (abc123)|2").
  - left. reflexivity.
  - reflexivity.
  - cbn. tauto.
Defined.

(** ** Selecting a wallpaper in part_000 *)

(** X17: part_000 does not echo a select command. It calls load with the
    payload; when that call rejects nothing else happens; when it resolves
    the current wallpaper is queried, and only when that query resolves is
    anything published: the four current-wallpaper messages, all retained,
    where the state topic of the select receives the id the application
    reports, whatever the payload was. *)
Theorem part000_select_publishes_reported_id (localIp msg : string) (env : Env)
    (w : World) :
  exists w',
    Part000.onMessage localIp (commandTopic localIp "select_wallpaper") msg env w
    = (Normal tt, w') /\
    calls (added w w')
    = Load msg None ::
      match perform (we env) (calls (trace w)) (Load msg None) with
      | None => [Current]
      | Some _ => []
      end /\
    publishes (added w w')
    = match perform (we env) (calls (trace w)) (Load msg None),
            current (we env) (calls (trace w) ++ [Load msg None]) with
      | None, inr cw =>
          [(makeTopic ["we"; nodeIdOf localIp; "current_wallpaper"; "state"],
            JSON_stringify (js env)
              (JObj [("id", JStr (cw_id cw)); ("title", JStr (cw_title cw))]), true);
           (makeTopic ["we"; nodeIdOf localIp; "current_wallpaper"; "attributes"],
            JSON_stringify (js env)
              (JObj [("title", JStr (cw_title cw));
                     ("id", JStr (cw_id cw));
                     ("description", cw_description cw);
                     ("preview", cw_preview cw);
                     ("tags", cw_tags cw);
                     ("path", cw_path cw);
                     ("properties", cw_properties cw)]), true);
           (stateTopic localIp "select_wallpaper", cw_id cw, true);
           (lastSetTopic localIp,
            JSON_stringify (js env) (Part000.propertiesOrEmpty cw), true)]
      | _, _ => []
      end.
Proof.
  topics. exec.
  destruct (perform (we env) (calls (trace w)) (Load msg None)); cbn [vars trace].
  - eexists. split; [reflexivity|]. rewrite added_app. split; reflexivity.
  - rewrite publishCurrentWallpaper_run. cbn [vars trace].
    rewrite calls_app. cbn [calls].
    destruct (current (we env) (calls (trace w) ++ [Load msg None]));
      (eexists; split; [reflexivity|]); cbn [trace];
      rewrite <- app_assoc, added_app; split; reflexivity.
Qed.

(** ** Buttons and the pause toggle *)

(** X18: the play and stop commands ignore their payload. In every variant
    the handler makes the one control call, and publishes the "pressed"
    acknowledgement, not retained, only when that call resolved; a rejected
    call is absorbed and nothing is published. No shared variable
    changes. *)
Theorem button_command (v : Variant) (localIp button msg : string) (env : Env)
    (w : World) :
  button = "button_play" \/ button = "button_stop" ->
  let call := if button =? "button_play" then Play else Stop in
  onMessage v localIp (commandTopic localIp button) msg env w
  = (Normal tt,
     {| vars := vars w;
        trace := trace w ++
          Call call ::
          match perform (we env) (calls (trace w)) call with
          | None => [Publish (stateTopic localIp button) "pressed" false]
          | Some _ => []
          end |}).
Proof.
  intros [-> | ->]; cbn [String.eqb Ascii.eqb Bool.eqb]; cbv zeta;
    destruct v; topics; exec;
    match goal with
    | |- context [perform ?a ?h ?c] => destruct (perform a h c); cbn [vars trace]
    end; rewrite <- ?app_assoc; reflexivity.
Qed.

Lemma button_command_witness :
  onMessage VPart001 "10.0.0.7" (commandTopic "10.0.0.7" "button_play") "anything"
    (envWith deadApi) startWorld
  = (Normal tt, {| vars := initialVars; trace := [Call Play] |}).
Proof.
  apply (button_command VPart001 "10.0.0.7" "button_play" "anything"
           (envWith deadApi) startWorld).
  left. reflexivity.
Defined.

(** X19: in main.ts and part_000 the pause command is a flip. Whatever the
    two payloads, two accepted pause commands in a row call pause() twice,
    publish first the negated and then the original shadow value, and
    leave the shadow boolean as it was before the first. *)
Theorem pause_twice_restores (v : Variant) (localIp msg1 msg2 : string)
    (env : Env) (w : World) :
  v <> VPart001 ->
  perform (we env) (calls (trace w)) Pause = None ->
  perform (we env) (calls (trace w) ++ [Pause]) Pause = None ->
  let w1 := snd (onMessage v localIp (commandTopic localIp "paused") msg1 env w) in
  let w2 := snd (onMessage v localIp (commandTopic localIp "paused") msg2 env w1) in
  paused (state (vars w1)) = negb (paused (state (vars w))) /\
  state (vars w2) = state (vars w) /\
  calls (added w w2) = [Pause; Pause] /\
  publishes (added w w2)
  = [(stateTopic localIp "paused", onOff (negb (paused (state (vars w)))), true);
     (stateTopic localIp "paused", onOff (paused (state (vars w))), true)].
Proof.
  intros Hv H1 H2. destruct w as [[ws ps cw [si mu pa]] tr].
  cbn [vars trace state paused] in *.
  destruct v; [|  |contradiction]; cbv zeta; topics; exec; rewrite H1;
    cbn [vars trace state paused snd set_paused showIcons muted];
    rewrite !calls_app; cbn [calls]; rewrite app_nil_r, H2;
    cbn [vars trace state paused snd set_paused showIcons muted];
    rewrite negb_involutive;
    change tr with (trace {| vars := {| wallpapers := ws; profiles := ps;
                                        currentWallpaper := cw;
                                        state := {| showIcons := si; muted := mu;
                                                    paused := pa |} |};
                             trace := tr |}) at 1 3;
    rewrite <- !app_assoc, added_app; repeat split.
Qed.

Lemma pause_twice_restores_witness :
  let w1 := snd (onMessage VMainTs "10.0.0.7" (commandTopic "10.0.0.7" "paused") "ON"
                   (envWith healthyApi) startWorld) in
  let w2 := snd (onMessage VMainTs "10.0.0.7" (commandTopic "10.0.0.7" "paused") "ON"
                   (envWith healthyApi) w1) in
  paused (state (vars w1)) = true /\
  state (vars w2) = state initialVars /\
  calls (added startWorld w2) = [Pause; Pause] /\
  publishes (added startWorld w2)
  = [(stateTopic "10.0.0.7" "paused", "ON", true);
     (stateTopic "10.0.0.7" "paused", "OFF", true)].
Proof.
  apply (pause_twice_restores VMainTs "10.0.0.7" "ON" "ON" (envWith healthyApi)
           startWorld); [discriminate | reflexivity | reflexivity].
Defined.

(** ** Registrations *)




(** ** What a toggle command does to the shadow state *)

(** X21: an accepted icons or mute command sets its shadow boolean to the
    truth value of the payload, whatever the boolean was, and leaves the
    other two shadow booleans as they were, in every variant; so repeating
    a command does not flip anything. *)
Theorem toggle_sets_shadow (v : Variant) (localIp : string) (t : Toggle)
    (msg : string) (env : Env) (w : World) :
  t <> Paused ->
  perform (we env) (calls (trace w)) (toggleCall v t msg) = None ->
  state (vars (snd (onMessage v localIp (commandTopic localIp (toggleEntity t)) msg env w)))
  = match t with
    | Icons => set_showIcons (interpret v msg) (state (vars w))
    | Muted => set_muted (interpret v msg) (state (vars w))
    | Paused => state (vars w)
    end.
Proof.
  intros Ht H.
  destruct t; [| |contradiction]; destruct v; topics;
    unfold toggleCall, interpret in *; exec;
    try (destruct (isOn msg)); try (destruct (isOn_part000 msg));
    cbn [enableCall disableCall] in *; rewrite H; reflexivity.
Qed.

Lemma toggle_sets_shadow_witness :
  state (vars (snd (onMessage VPart000 "10.0.0.7" (commandTopic "10.0.0.7" "show_icons")
                      "OFF" (envWith healthyApi) startWorld)))
  = {| showIcons := false; muted := false; paused := false |}.
Proof.
  apply (toggle_sets_shadow VPart000 "10.0.0.7" Icons "OFF" (envWith healthyApi)
           startWorld); [discriminate | reflexivity].
Defined.

(** X22: the pause command of part_001 as it is written. It calls pause()
    for a true payload and play() for any other, but it assigns the muted
    shadow boolean, not the paused one: after an accepted command the muted
    shadow boolean is the truth value of the payload, the paused shadow
    boolean is what it was, and the value published on the paused state
    topic is that unchanged value. *)
Theorem part001_pause_assigns_muted (localIp msg : string) (env : Env) (w : World) :
  perform (we env) (calls (trace w)) (if isOn msg then Pause else Play) = None ->
  Part001.onMessage localIp (commandTopic localIp "paused") msg env w
  = (Normal tt,
     {| vars := {| wallpapers := wallpapers (vars w); profiles := profiles (vars w);
                   currentWallpaper := currentWallpaper (vars w);
                   state := set_muted (isOn msg) (state (vars w)) |};
        trace := trace w ++
          [Call (if isOn msg then Pause else Play);
           Publish (stateTopic localIp "paused")
                   (onOff (paused (state (vars w)))) true] |}).
Proof.
  intros H. topics. exec.
  destruct (isOn msg); rewrite H; cbn [vars trace state paused set_muted];
    rewrite <- app_assoc; reflexivity.
Qed.

Lemma part001_pause_assigns_muted_witness :
  Part001.onMessage "10.0.0.7" (commandTopic "10.0.0.7" "paused") "ON"
    (envWith healthyApi) startWorld
  = (Normal tt,
     {| vars := {| wallpapers := []; profiles := []; currentWallpaper := None;
                   state := {| showIcons := true; muted := true; paused := false |} |};
        trace := [Call Pause;
                  Publish (stateTopic "10.0.0.7" "paused") "OFF" true] |}).
Proof.
  exact (part001_pause_assigns_muted "10.0.0.7" "ON" (envWith healthyApi) startWorld
           eq_refl).
Defined.

(** ** What each kind of event can cause *)

Lemma appends_forOf_In (P : Effect -> Prop) {A} (l : list A) (body : A -> M unit) :
  (forall x, In x l -> appends P (body x)) -> appends P (forOf l body).
Proof.
  induction l as [|x l IH]; intros Hb; cbn [forOf].
  - apply appends_ret.
  - apply appends_bind; [apply Hb; now left | intros _; apply IH].
    intros y Hy. apply Hb. now right.
Qed.

Ltac appends_step_in :=
  lazymatch goal with
  | |- appends _ (forOf _ _) => apply appends_forOf_In; intros ? ?
  | |- _ => appends_step
  end.

Ltac appends_auto_in :=
  cbv zeta;
  unfold publishJson, publish, stringify, parseJson, setState, setWallpapers,
    setProfiles, setCurrentWallpaper;
  repeat appends_step_in.

(** X23: which effects an event can have, in every variant and whatever
    the application answers. Only a connect subscribes and arms the timer;
    a message or a timer tick causes control calls and publishes and
    nothing else; an interrupt publishes, ends the client and exits, and
    makes no control call; a broker error causes nothing. No handler takes
    anything back from the trace. *)
Theorem effects_by_event (v : Variant) (localIp : string) (ev : Event)
    (env : Env) (w : World) :
  exists new,
    trace (snd (handle v localIp ev env w)) = (trace w ++ new)%list /\
    Forall (allowedEffect ev) new.
Proof.
  revert env w. change (appends (allowedEffect ev) (handle v localIp ev)).
  destruct v, ev; cbn [handle MainTs.handle Part000.handle Part001.handle];
    unfold_handlers; appends_auto; exact I.
Qed.

Ltac in_namespace :=
  cbn [inNamespace];
  first
    [ exact I
    | left; reflexivity
    | right; left; eexists _, _; reflexivity
    | right; right; eexists _, _; reflexivity
    | match goal with
      | H : In _ _ |- _ =>
          cbn [In map] in H;
          repeat (destruct H as [<-|H];
                  [ eexists; first [left; reflexivity | right; reflexivity] |]);
          contradiction
      end ].

(** X24: no variant ever publishes or subscribes outside the topics of its
    node. Every publish of every handler goes to the presence topic of the
    node, to a discovery topic of the node or to a topic
    we/<node>/<entity>/<leaf>; every subscription is to a set or state
    topic we/<node>/<entity>/.... *)
Theorem effects_in_namespace (v : Variant) (localIp : string) (ev : Event)
    (env : Env) (w : World) :
  exists new,
    trace (snd (handle v localIp ev env w)) = (trace w ++ new)%list /\
    Forall (inNamespace localIp) new.
Proof.
  revert env w. change (appends (inNamespace localIp) (handle v localIp ev)).
  destruct v, ev; cbn [handle MainTs.handle Part000.handle Part001.handle];
    unfold_handlers; appends_auto_in; in_namespace.
Qed.
